(** * Retail Digital Twin Command Center: the state reconciliation core

    A shallow embedding of [src/App.tsx] (the [App] component: the
    WebSocket message handler, [processWebSocketData], the store-change
    reset effect and [updateSimulation]) together with the types and the
    store table it imports, and the properties of it that the
    specification states.

    Modelling conventions.
    - A JavaScript [number] that holds a coordinate, a time of
      [performance.now()] or a heatmap intensity is an exact rational
      ([Q]); rounding of IEEE doubles and of [Float32Array] cells is not
      modelled.  Counters and [Date.now()] milliseconds are integers ([Z]).
    - React state and refs of the component are the fields of one record
      [App.t]; a state updater is a pure function of the previous state, and
      updaters run in the order in which the source queues them.
    - [Math.sqrt (d2) > 30] is evaluated as [900 < d2]; lemma
      [distance_gt_30_iff] relates the two over the reals.
    - [Math.atan2] is a variable of the section [Engine]. *)

From Stdlib Require Import QArith Qabs Qround Psatz Reals Qreals.
From Stdlib Require Import String Ascii.
From stdpp Require Import gmap strings list.

Local Open Scope Q_scope.
Local Open Scope string_scope.

(** ** Numbers *)

(** [a > b] on numbers, as a boolean. *)
Definition Qgt_bool (a b : Q) : bool := negb (Qle_bool a b).

(** [Math.PI] is the double nearest to pi, an exact rational. *)
Definition Math_PI : Q := 884279719003555 # 281474976710656.

Definition GRID_SIZE : Q := 25.

(** ** Strings *)

Definition lowerAscii (c : ascii) : ascii :=
  let n := nat_of_ascii c in
  if (65 <=? n)%nat && (n <=? 90)%nat then ascii_of_nat (n + 32) else c.

(** [String.prototype.toLowerCase], on the ASCII letters. *)
Fixpoint toLowerCase (s : string) : string :=
  match s with
  | EmptyString => EmptyString
  | String c r => String (lowerAscii c) (toLowerCase r)
  end.

(** ** types.ts *)

Module Point.
Record t : Type := mk { x : Q; y : Q }.
End Point.

Inductive AgentState : Type := WALKING | BROWSING | EXITING.

Inductive Gender : Type := MALE | FEMALE.

Module Customer.
Record t : Type := mk {
  id : string;
  pos : Point.t;
  target : Point.t;
  targetId : string;
  state : AgentState;
  angle : Q;
  speed : Q;
  browsingTimer : Q;
  dwellStartTime : Q;
  totalStartTime : Q;
  hasCountedForZone : bool;
  path : list Point.t;
  color : string;
  gender : Gender;
  age : option string
}.
End Customer.

Module PlanData.
(** [orientation] and [position] are [number[]] of which the code reads
    the components 0 and 1. *)
Record t : Type := mk {
  age : string;
  bbox : list Q;
  gender : string;
  track_id : string;
  orientation : Q * Q;
  position : Q * Q
}.
End PlanData.

Module WebSocketResponse.
(** [video_image] is an array of objects; an object is the list of its
    own (key, value) entries in insertion order. *)
Record t : Type := mk {
  area : string;
  entry_number : Z;
  short_dwell_number : Z;
  video_image : list (list (string * string));
  plan_data : list PlanData.t
}.
End WebSocketResponse.

Module WebSocketMessage.
(** [data] is [None] when the field is missing or falsy. *)
Record t : Type := mk {
  type : string;
  deviceId : string;
  data : option WebSocketResponse.t
}.
End WebSocketMessage.

Module StoreConfig.
(** The racks, islands and hotspots of a store are read by the drawing
    code only and are left out. *)
Record t : Type := mk {
  id : string;
  name : string;
  width : Q;
  height : Q;
  entrance : Point.t
}.
End StoreConfig.

(** ** constants.ts *)

Definition STORES : list StoreConfig.t :=
  [ StoreConfig.mk "coldroom1" "Makro St.57 (Bangphil-Coldroom1)"
      1516 1016 (Point.mk 758 980);
    StoreConfig.mk "coldroom2" "Makro St.57 (Bangphil-Coldroom2)"
      1118 690 (Point.mk 559 650) ].

(** ** App.tsx: the component state *)

Module DailyStats.
Record t : Type := mk {
  totalCustomers : Z;
  quickExits : Z;
  femaleCount : Z;
  maleCount : Z;
  totalDwellTimeMs : Z;
  completedVisits : Z
}.
End DailyStats.

(** [Math.ceil(store.width / GRID_SIZE)] and the same for the height. *)
Definition COLS (store : StoreConfig.t) : Z :=
  Qceiling (StoreConfig.width store / GRID_SIZE).

Definition ROWS (store : StoreConfig.t) : Z :=
  Qceiling (StoreConfig.height store / GRID_SIZE).

(** [new Float32Array(n)]: [n] cells, all zero. *)
Definition Float32Array (n : Z) : list Q := replicate (Z.to_nat n) 0.

Module App.
(** [store] is the render-scope constant [STORES[currentStoreIdx]]. *)
Record t : Type := mk {
  currentStoreIdx : nat;
  store : StoreConfig.t;
  customers : list Customer.t;
  dailyStats : DailyStats.t;
  liveImage : option string;
  heatmap : list Q;
  heatmapAccumulatorRef : list Q;
  lastTimeRef : Q;
  entryTimesRef : gmap string Z
}.
End App.

(** ** App.tsx: the operations *)

Section Engine.

(** [Math.atan2 y x], in radians. *)
Variable Math_atan2 : Q -> Q -> Q.

(** *** processWebSocketData *)

(** [p.gender.toLowerCase() === 'female' ? Gender.FEMALE : Gender.MALE] *)
Definition decodeGender (g : string) : Gender :=
  if String.eqb (toLowerCase g) "female" then FEMALE else MALE.

Definition genderColor (g : Gender) : string :=
  match g with FEMALE => "#ec4899" | MALE => "#06b6d4" end.

Definition targetPos (p : PlanData.t) : Point.t :=
  Point.mk (fst (PlanData.position p)) (snd (PlanData.position p)).

Definition targetAngle (p : PlanData.t) : Q :=
  let angleRad :=
    Math_atan2 (snd (PlanData.orientation p)) (fst (PlanData.orientation p)) in
  (angleRad * 180) / Math_PI.

(** [prevCustomers.find(c => c.id === track_id)] *)
Definition findCustomer (track_id : string) (prevCustomers : list Customer.t)
  : option Customer.t :=
  List.find (fun c => String.eqb (Customer.id c) track_id) prevCustomers.

(** [{ ...existing, target, angle, age, state: WALKING }] *)
Definition updateExisting (existing : Customer.t) (p : PlanData.t) : Customer.t :=
  Customer.mk
    (Customer.id existing)
    (Customer.pos existing)
    (targetPos p)
    (Customer.targetId existing)
    WALKING
    (targetAngle p)
    (Customer.speed existing)
    (Customer.browsingTimer existing)
    (Customer.dwellStartTime existing)
    (Customer.totalStartTime existing)
    (Customer.hasCountedForZone existing)
    (Customer.path existing)
    (Customer.color existing)
    (Customer.gender existing)
    (Some (PlanData.age p)).

Definition newCustomer (now : Q) (p : PlanData.t) : Customer.t :=
  let gender := decodeGender (PlanData.gender p) in
  Customer.mk
    (PlanData.track_id p)
    (targetPos p)
    (targetPos p)
    "unknown"
    WALKING
    (targetAngle p)
    0 0 now now false
    [targetPos p]
    (genderColor gender)
    gender
    (Some (PlanData.age p)).

(** What the [forEach] over [data.plan_data] threads along:
    [nextCustomers], [activeIds] and the map behind [entryTimesRef]. *)
Record Merge : Type := mkMerge {
  nextCustomers : list Customer.t;
  activeIds : gset string;
  entryTimes : gmap string Z
}.

(** The body of [data.plan_data.forEach(p => ...)]. *)
Definition mergePerson (prevCustomers : list Customer.t) (now : Q) (dateNow : Z)
    (m : Merge) (p : PlanData.t) : Merge :=
  let ids := {[ PlanData.track_id p ]} ∪ activeIds m in
  match findCustomer (PlanData.track_id p) prevCustomers with
  | Some existing =>
      mkMerge (nextCustomers m ++ [updateExisting existing p]) ids (entryTimes m)
  | None =>
      let times :=
        match entryTimes m !! PlanData.track_id p with
        | Some _ => entryTimes m
        | None => <[ PlanData.track_id p := dateNow ]> (entryTimes m)
        end in
      mkMerge (nextCustomers m ++ [newCustomer now p]) ids times
  end.

(** The updater [ds => ({ ...ds, totalDwellTimeMs: ds.totalDwellTimeMs
    + duration, completedVisits: ds.completedVisits + 1 })]. *)
Definition recordVisit (duration : Z) (ds : DailyStats.t) : DailyStats.t :=
  DailyStats.mk
    (DailyStats.totalCustomers ds)
    (DailyStats.quickExits ds)
    (DailyStats.femaleCount ds)
    (DailyStats.maleCount ds)
    (DailyStats.totalDwellTimeMs ds + duration)%Z
    (DailyStats.completedVisits ds + 1)%Z.

(** The body of [prevCustomers.forEach(c => ...)], the exits: it folds
    one finished visit into the statistics and forgets the entry time.
    [if (entryTime)] is false for a missing entry and for [0]. *)
Definition handleExit (ids : gset string) (dateNow : Z)
    (st : DailyStats.t * gmap string Z) (c : Customer.t)
  : DailyStats.t * gmap string Z :=
  let (ds, times) := st in
  if decide (Customer.id c ∈ ids) then st
  else
    match times !! Customer.id c with
    | Some entryTime =>
        if Z.eqb entryTime 0 then st
        else
          let duration := (dateNow - entryTime)%Z in
          (recordVisit duration ds, delete (Customer.id c) times)
    | None => st
    end.

(** The first state updater of [dailyStats]. *)
Definition countGender (g : string) (plan_data : list PlanData.t) : Z :=
  Z.of_nat (length (List.filter
    (fun p => String.eqb (toLowerCase (PlanData.gender p)) g) plan_data)).

Definition updateStats (data : WebSocketResponse.t) (prev : DailyStats.t)
  : DailyStats.t :=
  DailyStats.mk
    (if (0 <? WebSocketResponse.entry_number data)%Z
     then WebSocketResponse.entry_number data
     else DailyStats.totalCustomers prev)
    (if (0 <? WebSocketResponse.short_dwell_number data)%Z
     then WebSocketResponse.short_dwell_number data
     else DailyStats.quickExits prev)
    (countGender "female" (WebSocketResponse.plan_data data))
    (countGender "male" (WebSocketResponse.plan_data data))
    (DailyStats.totalDwellTimeMs prev)
    (DailyStats.completedVisits prev).

(** [Object.values(data.video_image[0])[0]], when it is a non-empty
    string. *)
Definition firstImage (data : WebSocketResponse.t) : option string :=
  match WebSocketResponse.video_image data with
  | ((_, base64) :: _) :: _ =>
      if String.eqb base64 "" then None else Some base64
  | _ => None
  end.

(** [now] is [performance.now()] and [dateNow] is [Date.now()] at the
    time the message is processed. *)
Definition processWebSocketData (data : WebSocketResponse.t) (now : Q)
    (dateNow : Z) (s : App.t) : App.t :=
  let image :=
    match firstImage data with
    | Some base64 => Some ("data:image/jpeg;base64," ++ base64)
    | None => App.liveImage s
    end in
  let stats := updateStats data (App.dailyStats s) in
  let prevCustomers := App.customers s in
  let m :=
    fold_left (mergePerson prevCustomers now dateNow)
      (WebSocketResponse.plan_data data)
      (mkMerge [] ∅ (App.entryTimesRef s)) in
  let '(stats', times) :=
    fold_left (handleExit (activeIds m) dateNow) prevCustomers
      (stats, entryTimes m) in
  App.mk (App.currentStoreIdx s) (App.store s)
    (nextCustomers m)
    stats'
    image
    (App.heatmap s)
    (App.heatmapAccumulatorRef s)
    (App.lastTimeRef s)
    times.

(** *** ws.onmessage

    The payload is [None] when [JSON.parse] throws; the exception is
    caught and logged. *)
Definition onmessage (payload : option WebSocketMessage.t) (now : Q)
    (dateNow : Z) (s : App.t) : App.t :=
  match payload with
  | Some message =>
      match WebSocketMessage.data message with
      | Some data =>
          if String.eqb (WebSocketMessage.type message) "device_data"
          then processWebSocketData data now dateNow s
          else s
      | None => s
      end
  | None => s
  end.

(** *** The reset effect and the store selector *)

(** The effect [Reset heatmaps on store change], run for the new store. *)
Definition resetHeatmaps (idx : nat) (store : StoreConfig.t) (s : App.t) : App.t :=
  let newSize := (COLS store * ROWS store)%Z in
  App.mk idx store
    []
    (App.dailyStats s)
    (App.liveImage s)
    (Float32Array newSize)
    (Float32Array newSize)
    (App.lastTimeRef s)
    (App.entryTimesRef s).

(** [setCurrentStoreIdx(idx)]: setting the index it already has renders
    nothing and runs no effect; an index outside [STORES] leaves [store]
    undefined and the render fails ([None]). *)
Definition setCurrentStoreIdx (idx : nat) (s : App.t) : option App.t :=
  if decide (idx = App.currentStoreIdx s) then Some s
  else
    match STORES !! idx with
    | Some store => Some (resetHeatmaps idx store s)
    | None => None
    end.

(** *** updateSimulation *)

Definition lerpFactor : Q := 15 # 100.

(** The square of the distance between two points; [Math.pow (d, 2)]
    is [d * d]. *)
Definition dist2 (p q : Point.t) : Q :=
  (Point.x p - Point.x q) * (Point.x p - Point.x q)
  + (Point.y p - Point.y q) * (Point.y p - Point.y q).

(** [Math.abs(dx) > 0.5 || Math.abs(dy) > 0.5] *)
Definition significant (pos target : Point.t) : bool :=
  let dx := Point.x target - Point.x pos in
  let dy := Point.y target - Point.y pos in
  Qgt_bool (Qabs dx) (1 # 2) || Qgt_bool (Qabs dy) (1 # 2).

Definition lerp (pos target : Point.t) : Point.t :=
  let dx := Point.x target - Point.x pos in
  let dy := Point.y target - Point.y pos in
  Point.mk (Point.x pos + dx * lerpFactor) (Point.y pos + dy * lerpFactor).

(** [path.length === 0 || Math.sqrt(...) > 30], for the moved [pos]. *)
Definition farFromTrail (pos : Point.t) (path : list Point.t) : bool :=
  match last path with
  | None => true
  | Some p => Qgt_bool (dist2 pos p) 900
  end.

(** [path.slice(-15)] *)
Definition slice15 (path : list Point.t) : list Point.t :=
  drop (length path - 15) path.

(** The position and the trail of a customer after one frame. *)
Definition advance (c : Customer.t) : Point.t * list Point.t :=
  let pos := Customer.pos c in
  let target := Customer.target c in
  let path := Customer.path c in
  if significant pos target then
    let pos' := lerp pos target in
    if farFromTrail pos' path
    then (pos', (slice15 path ++ [pos'])%list)
    else (pos', path)
  else (pos, path).

(** The customer after one frame: [{ ...c, pos, path }]. *)
Definition moveCustomer (c : Customer.t) : Customer.t :=
  let (pos, path) := advance c in
  Customer.mk
    (Customer.id c) pos (Customer.target c) (Customer.targetId c)
    (Customer.state c) (Customer.angle c) (Customer.speed c)
    (Customer.browsingTimer c) (Customer.dwellStartTime c)
    (Customer.totalStartTime c) (Customer.hasCountedForZone c)
    path (Customer.color c) (Customer.gender c) (Customer.age c).

(** [Math.floor(pos.x / GRID_SIZE)] and [Math.floor(pos.y / GRID_SIZE)] *)
Definition gridX (pos : Point.t) : Z := Qfloor (Point.x pos / GRID_SIZE).
Definition gridY (pos : Point.t) : Z := Qfloor (Point.y pos / GRID_SIZE).

(** [gridX >= 0 && gridX < COLS_INT && gridY >= 0 && gridY < ROWS_INT] *)
Definition onGrid (store : StoreConfig.t) (pos : Point.t) : bool :=
  ((0 <=? gridX pos) && (gridX pos <? COLS store)
   && (0 <=? gridY pos) && (gridY pos <? ROWS store))%Z.

(** [gridY * COLS_INT + gridX] *)
Definition cellIndex (store : StoreConfig.t) (pos : Point.t) : nat :=
  Z.to_nat (gridY pos * COLS store + gridX pos).

(** [Update Heatmap]: the cell under [pos] gains [0.02 * dt] when [pos]
    lies on the grid of [store] and the accumulator has that cell. *)
Definition warm (store : StoreConfig.t) (dt : Q) (acc : list Q) (pos : Point.t)
  : list Q :=
  if onGrid store pos then
    let idx := cellIndex store pos in
    match acc !! idx with
    | Some v => <[ idx := v + (2 # 100) * dt ]> acc
    | None => acc
    end
  else acc.

(** The body of [prev.map(c => ...)]; it mutates the accumulator with
    the moved position. *)
Definition frameCustomer (store : StoreConfig.t) (dt : Q) (acc : list Q)
    (c : Customer.t) : list Q * Customer.t :=
  let c' := moveCustomer c in
  (warm store dt acc (Customer.pos c'), c').

Fixpoint frameCustomers (store : StoreConfig.t) (dt : Q) (acc : list Q)
    (prev : list Customer.t) : list Q * list Customer.t :=
  match prev with
  | [] => (acc, [])
  | c :: rest =>
      let (acc1, c') := frameCustomer store dt acc c in
      let (acc2, rest') := frameCustomers store dt acc1 rest in
      (acc2, c' :: rest')
  end.

(** The elapsed frames of a tick at [time]. *)
Definition elapsedFrames (time : Q) (s : App.t) : Q :=
  (time - App.lastTimeRef s) / (1667 # 100).

(** One animation frame at [time]. The snapshot of the accumulator is
    published when [Math.floor(time) % 60 === 0]. *)
Definition updateSimulation (time : Q) (s : App.t) : App.t :=
  let dt := elapsedFrames time s in
  let (acc, next) :=
    frameCustomers (App.store s) dt (App.heatmapAccumulatorRef s)
      (App.customers s) in
  App.mk (App.currentStoreIdx s) (App.store s)
    next
    (App.dailyStats s)
    (App.liveImage s)
    (if (Z.rem (Qfloor time) 60 =? 0)%Z then acc else App.heatmap s)
    acc
    time
    (App.entryTimesRef s).

(** *** The component over time *)

(** The state after the first render, at [performance.now() = t0]. *)
Definition initial (t0 : Q) : App.t :=
  let store := StoreConfig.mk "coldroom1" "Makro St.57 (Bangphil-Coldroom1)"
                 1516 1016 (Point.mk 758 980) in
  App.mk 0 store []
    (DailyStats.mk 0 0 0 0 0 0)
    None
    (Float32Array (COLS store * ROWS store))
    (Float32Array (COLS store * ROWS store))
    t0
    ∅.

(** What happens to the component: a message arrives, the browser
    calls the animation frame, the user selects a store. *)
Inductive Event : Type :=
| Message (payload : option WebSocketMessage.t) (now : Q) (dateNow : Z)
| Frame (time : Q)
| Select (idx : nat).

Definition handle (e : Event) (s : App.t) : option App.t :=
  match e with
  | Message payload now dateNow => Some (onmessage payload now dateNow s)
  | Frame time => Some (updateSimulation time s)
  | Select idx => setCurrentStoreIdx idx s
  end.

Fixpoint run (events : list Event) (s : App.t) : option App.t :=
  match events with
  | [] => Some s
  | e :: rest =>
      match handle e s with
      | Some s' => run rest s'
      | None => None
      end
  end.

End Engine.

(** ** Vocabulary of the statements *)

(** A payload that the handler drops: it does not parse, its wrapper
    type is not ['device_data'], or it has no [data]. *)
Definition malformed (payload : option WebSocketMessage.t) : Prop :=
  match payload with
  | None => True
  | Some message =>
      WebSocketMessage.type message <> "device_data"
      \/ WebSocketMessage.data message = None
  end.

(** The component with another live set and all else as it is. *)
Definition withCustomers (l : list Customer.t) (s : App.t) : App.t :=
  App.mk (App.currentStoreIdx s) (App.store s) l (App.dailyStats s)
    (App.liveImage s) (App.heatmap s) (App.heatmapAccumulatorRef s)
    (App.lastTimeRef s) (App.entryTimesRef s).

(** An update that lists every id at most once. *)
Definition distinctIds (e : Event) : Prop :=
  match e with
  | Message (Some message) _ _ =>
      match WebSocketMessage.data message with
      | Some data =>
          NoDup (map PlanData.track_id (WebSocketResponse.plan_data data))
      | None => True
      end
  | _ => True
  end.

(** The distance between two points, as a real number. *)
Definition distance (p q : Point.t) : R := sqrt (Q2R (dist2 p q)).





(** The live entity that one record of the update produces. *)
Definition mergedCustomer (Math_atan2 : Q -> Q -> Q) (prev : list Customer.t)
    (now : Q) (p : PlanData.t) : Customer.t :=
  match findCustomer (PlanData.track_id p) prev with
  | Some existing => updateExisting Math_atan2 existing p
  | None => newCustomer Math_atan2 now p
  end.

(** Two daily statistics with the same counters of the first updater. *)
Definition sameCounters (a b : DailyStats.t) : Prop :=
  DailyStats.totalCustomers a = DailyStats.totalCustomers b
  /\ DailyStats.quickExits a = DailyStats.quickExits b
  /\ DailyStats.femaleCount a = DailyStats.femaleCount b
  /\ DailyStats.maleCount a = DailyStats.maleCount b.

(** Two states of the exits, [b] one finished visit of [k] ahead of [a]. *)
Definition ahead (k : string) (d : Z)
    (a b : DailyStats.t * gmap string Z) : Prop :=
  b.1 = recordVisit d a.1 /\ b.2 = delete k a.2.

(** ** App.tsx: values derived for the display *)

(** [avgDwell]: [Math.floor(totalDwellTimeMs / completedVisits / 1000)],
    and [0] when no visit is completed. *)
Definition avgDwell (ds : DailyStats.t) : Z :=
  if (DailyStats.completedVisits ds =? 0)%Z then 0%Z
  else Qfloor (inject_Z (DailyStats.totalDwellTimeMs ds)
               / inject_Z (DailyStats.completedVisits ds) / 1000).

(** The colour and the opacity of a heatmap cell of value [val]. *)
Definition heatColor (val : Q) : string :=
  if Qgt_bool val 25 then "#ef4444"
  else if Qgt_bool val 12 then "#f59e0b"
  else "#06b6d4".

(** [Math.min(val / 15, 0.9)] *)
Definition heatOpacity (val : Q) : Q :=
  if Qle_bool (val / 15) (9 # 10) then val / 15 else 9 # 10.

(** The rectangle drawn for the cell in row [r] and column [c] of the
    published heatmap: none when the cell is missing ([isNaN]) or its
    value is below [0.1]. *)
Definition heatCell (store : StoreConfig.t) (heatmap : list Q) (r c : nat)
  : option (string * Q) :=
  let idx := (r * Z.to_nat (COLS store) + c)%nat in
  match heatmap !! idx with
  | Some val =>
      if Qgt_bool (1 # 10) val then None
      else Some (heatColor val, heatOpacity val)
  | None => None
  end.

(** ** More vocabulary *)



(** The update lists the id of [c]. *)
Definition listed (data : WebSocketResponse.t) (c : Customer.t) : bool :=
  existsb (String.eqb (Customer.id c))
    (map PlanData.track_id (WebSocketResponse.plan_data data)).

(** The live entities that the update does not list. *)
Definition retired (data : WebSocketResponse.t) (s : App.t) : list Customer.t :=
  List.filter (fun c => negb (listed data c)) (App.customers s).

(** The visit times, up to [dateNow], of the customers of [l]. *)
Definition dwellSum (dateNow : Z) (times : gmap string Z) (l : list Customer.t)
  : Z :=
  foldr (fun c sum => (dateNow - default 0%Z (times !! Customer.id c) + sum)%Z)
    0%Z l.




(** The last point of the trail of [c] is at most 30 units from [c]. *)
Definition trailClose (c : Customer.t) : Prop :=
  exists p, last (Customer.path c) = Some p
            /\ (distance (Customer.pos c) p <= 30)%R.



(** From [a] to [b] no visit is lost and no counter of entries or quick
    exits that was positive (or not negative) stops being so. *)
Definition countersKept (a b : DailyStats.t) : Prop :=
  (DailyStats.completedVisits a <= DailyStats.completedVisits b)%Z
  /\ ((0 < DailyStats.totalCustomers a)%Z -> (0 < DailyStats.totalCustomers b)%Z)
  /\ ((0 < DailyStats.quickExits a)%Z -> (0 < DailyStats.quickExits b)%Z)
  /\ ((0 <= DailyStats.totalCustomers a)%Z -> (0 <= DailyStats.totalCustomers b)%Z)
  /\ ((0 <= DailyStats.quickExits a)%Z -> (0 <= DailyStats.quickExits b)%Z).



(** An image as [setLiveImage] makes it: a JPEG data URL with a
    payload that is not empty. *)
Definition jpegDataUrl (img : string) : Prop :=
  exists base64, base64 <> "" /\ img = "data:image/jpeg;base64," ++ base64.

(** An entity as the merges make it: it is [WALKING], its colour is the
    one of its gender, it has an age and it heads for no hotspot. *)
Definition asMerged (c : Customer.t) : Prop :=
  Customer.state c = WALKING
  /\ Customer.color c = genderColor (Customer.gender c)
  /\ is_Some (Customer.age c)
  /\ Customer.targetId c = "unknown"
  /\ Customer.dwellStartTime c = Customer.totalStartTime c.



(** ** Sample inputs *)

Module Sample.

(** A stand-in for [Math.atan2]; no property depends on the heading. *)
Definition atan2 (y x : Q) : Q := 0.

Definition person (track_id : string) (x y : Q) : PlanData.t :=
  PlanData.mk "30" [] "Female" track_id (1, 0) (x, y).

Definition update (entries : Z) (people : list PlanData.t) : WebSocketResponse.t :=
  WebSocketResponse.mk "coldroom" entries 0 [] people.

Definition message (entries : Z) (people : list PlanData.t)
  : option WebSocketMessage.t :=
  Some (WebSocketMessage.mk "device_data" "cam-1" (Some (update entries people))).

(** The component after [a] and [b] were reported at [Date.now() = 1000]. *)
Definition two : App.t :=
  processWebSocketData atan2
    (update 42 [person "a" 0 0; person "b" 100 10]) 5 1000 (initial 0).

(** Then [a] is reported 10 units further along the x axis. *)
Definition walking : App.t :=
  processWebSocketData atan2
    (update 42 [person "a" 10 0; person "b" 100 10]) 6 2000 two.

End Sample.

(** * Properties *)

(** ** Facts about [processWebSocketData] *)

Section MergeFacts.

Variable Math_atan2 : Q -> Q -> Q.

Lemma findCustomer_id k prev c :
  findCustomer k prev = Some c -> Customer.id c = k.
Proof.
  unfold findCustomer. intros H. apply find_some in H as [_ H].
  by apply String.eqb_eq in H.
Qed.

Lemma findCustomer_None k prev :
  findCustomer k prev = None <-> k ∉ map Customer.id prev.
Proof.
  unfold findCustomer. induction prev as [|c prev IH]; simpl.
  - split; [intros _; apply not_elem_of_nil | done].
  - rewrite not_elem_of_cons. destruct (String.eqb_spec (Customer.id c) k) as [E|E].
    + split; [done | intros [E' _]; congruence].
    + rewrite IH. split; [intros ?; split; congruence | by intros [_ ?]].
Qed.

Lemma findCustomer_skip k before c after :
  Customer.id c <> k ->
  findCustomer k (before ++ c :: after) = findCustomer k (before ++ after).
Proof.
  intros Hne. unfold findCustomer.
  induction before as [|b before IH]; simpl.
  - destruct (String.eqb_spec (Customer.id c) k); [done | done].
  - by rewrite IH.
Qed.

Lemma mergedCustomer_id prev now p :
  Customer.id (mergedCustomer Math_atan2 prev now p) = PlanData.track_id p.
Proof.
  unfold mergedCustomer.
  destruct (findCustomer _ prev) as [c|] eqn:E; [|done].
  simpl. by apply findCustomer_id in E.
Qed.

Section Records.

Variables (prev : list Customer.t) (now : Q) (dateNow : Z).

Local Abbreviation person := (mergePerson Math_atan2 prev now dateNow).

Lemma mergePerson_customers l m :
  nextCustomers (fold_left person l m)
  = (nextCustomers m ++ map (mergedCustomer Math_atan2 prev now) l)%list.
Proof.
  revert m. induction l as [|p l IH]; intros m; simpl.
  - by rewrite app_nil_r.
  - rewrite IH. unfold mergePerson, mergedCustomer.
    destruct (findCustomer _ prev); simpl; by rewrite <- app_assoc.
Qed.

Lemma mergePerson_activeIds l m k :
  k ∈ activeIds (fold_left person l m)
  <-> k ∈ map PlanData.track_id l \/ k ∈ activeIds m.
Proof.
  revert m. induction l as [|p l IH]; intros m; simpl.
  - split; [by right | intros [H|H]; [by apply elem_of_nil in H | done]].
  - rewrite IH, elem_of_cons.
    assert (activeIds (person m p) = {[PlanData.track_id p]} ∪ activeIds m) as ->.
    { unfold mergePerson. by destruct (findCustomer _ prev). }
    rewrite elem_of_union, elem_of_singleton. tauto.
Qed.

(** An entry time that is recorded is never overwritten. *)
Lemma mergePerson_times_kept l m k t :
  entryTimes m !! k = Some t ->
  entryTimes (fold_left person l m) !! k = Some t.
Proof.
  revert m. induction l as [|p l IH]; intros m Hk; simpl; [done|].
  apply IH. unfold mergePerson.
  destruct (findCustomer _ prev); simpl; [done|].
  destruct (entryTimes m !! PlanData.track_id p) eqn:E; [done|].
  rewrite lookup_insert_ne; [done | congruence].
Qed.

(** Only a record of an id that is not live writes the entry time of
    that id. *)
Lemma mergePerson_times_other l m k :
  (forall p, p ∈ l -> PlanData.track_id p = k -> is_Some (findCustomer k prev)) ->
  entryTimes (fold_left person l m) !! k = entryTimes m !! k.
Proof.
  revert m. induction l as [|p l IH]; intros m Hl; simpl; [done|].
  rewrite IH.
  - unfold mergePerson.
    destruct (findCustomer (PlanData.track_id p) prev) eqn:F; simpl; [done|].
    destruct (entryTimes m !! PlanData.track_id p) eqn:E; [done|].
    apply lookup_insert_ne. intros Hk.
    destruct (Hl p) as [c Hc]; [apply elem_of_cons; by left | done |].
    congruence.
  - intros q Hq. apply Hl. apply elem_of_cons. by right.
Qed.

(** A new id gets [dateNow] as its entry time unless it has one. *)
Lemma mergePerson_times_new l m k :
  k ∈ map PlanData.track_id l ->
  findCustomer k prev = None ->
  entryTimes m !! k = None ->
  entryTimes (fold_left person l m) !! k = Some dateNow.
Proof.
  revert m. induction l as [|p l IH]; intros m Hin Hf Hm; simpl in *.
  - by apply elem_of_nil in Hin.
  - destruct (decide (PlanData.track_id p = k)) as [Hk|Hne].
    + apply mergePerson_times_kept. unfold mergePerson.
      rewrite Hk, Hf, Hm. simpl. apply lookup_insert_eq.
    + apply elem_of_cons in Hin as [Hin|Hin]; [congruence|].
      apply IH; [done | done |]. unfold mergePerson.
      destruct (findCustomer (PlanData.track_id p) prev); simpl; [done|].
      destruct (entryTimes m !! PlanData.track_id p); [done|].
      by rewrite lookup_insert_ne.
Qed.

End Records.

End MergeFacts.

(** ** Facts about the exits *)

Section ExitFacts.

Variables (ids : gset string) (dateNow : Z).

Local Abbreviation exit := (handleExit ids dateNow).

Lemma handleExit_listed st c : Customer.id c ∈ ids -> exit st c = st.
Proof. intros H. destruct st. unfold handleExit. by rewrite decide_True. Qed.

Lemma handleExit_retires ds times c T0 :
  Customer.id c ∉ ids -> times !! Customer.id c = Some T0 -> T0 <> 0%Z ->
  exit (ds, times) c
  = (recordVisit (dateNow - T0) ds, delete (Customer.id c) times).
Proof.
  intros Hout Ht H0. unfold handleExit.
  rewrite decide_False, Ht by done.
  by destruct (Z.eqb_spec T0 0).
Qed.

(** An exit touches the entry time of the leaving customer only. *)
Lemma handleExit_times_other st c k :
  (Customer.id c = k -> k ∈ ids) -> (exit st c).2 !! k = st.2 !! k.
Proof.
  intros Hk. destruct st as [ds times]. unfold handleExit.
  destruct (decide (Customer.id c ∈ ids)) as [|Hout]; [done|].
  destruct (times !! Customer.id c) as [t|] eqn:E; [|done].
  destruct (Z.eqb t 0); [done|]. simpl.
  apply lookup_delete_ne. intros Heq. apply Hout. rewrite Heq. by apply Hk.
Qed.

Lemma exits_times_other l st k :
  (forall c, c ∈ l -> Customer.id c = k -> k ∈ ids) ->
  (fold_left exit l st).2 !! k = st.2 !! k.
Proof.
  revert st. induction l as [|c l IH]; intros st Hl; simpl; [done|].
  rewrite IH.
  - apply handleExit_times_other. apply Hl, elem_of_cons. by left.
  - intros c' Hc'. apply Hl, elem_of_cons. by right.
Qed.

Lemma exits_all_listed l st :
  (forall c, c ∈ l -> Customer.id c ∈ ids) -> fold_left exit l st = st.
Proof.
  revert st. induction l as [|c l IH]; intros st Hl; simpl; [done|].
  rewrite handleExit_listed by (apply Hl, elem_of_cons; by left).
  apply IH. intros c' Hc'. apply Hl, elem_of_cons. by right.
Qed.

(** The exits leave the counters of the first updater alone. *)
Lemma exits_counters l st : sameCounters (fold_left exit l st).1 st.1.
Proof.
  revert st. induction l as [|c l IH]; intros st; simpl; [done|].
  destruct (IH (exit st c)) as (H1 & H2 & H3 & H4).
  assert (sameCounters (exit st c).1 st.1) as (G1 & G2 & G3 & G4).
  { destruct st as [ds times]. unfold handleExit.
    destruct (decide _); [done|].
    destruct (times !! Customer.id c) as [t|]; [|done].
    by destruct (Z.eqb t 0). }
  repeat split; congruence.
Qed.

Lemma recordVisit_comm d e ds :
  recordVisit d (recordVisit e ds) = recordVisit e (recordVisit d ds).
Proof. unfold recordVisit. simpl. f_equal; lia. Qed.

Lemma handleExit_ahead k d a b c :
  ahead k d a b -> Customer.id c <> k -> ahead k d (exit a c) (exit b c).
Proof.
  destruct a as [ds times], b as [ds' times']. intros [Hs Ht] Hne.
  simpl in Hs, Ht. subst ds' times'. unfold handleExit.
  destruct (decide _); [done|].
  rewrite lookup_delete_ne by done.
  destruct (times !! Customer.id c) as [t|]; [|done].
  destruct (Z.eqb t 0); [done|].
  split; simpl; [apply recordVisit_comm | apply delete_delete].
Qed.

Lemma exits_ahead k d l a b :
  ahead k d a b -> (forall c, c ∈ l -> Customer.id c <> k) ->
  ahead k d (fold_left exit l a) (fold_left exit l b).
Proof.
  revert a b. induction l as [|c l IH]; intros a b Hab Hl; simpl; [done|].
  apply IH.
  - apply handleExit_ahead; [done|]. apply Hl, elem_of_cons. by left.
  - intros c' Hc'. apply Hl, elem_of_cons. by right.
Qed.

End ExitFacts.

(** ** [processWebSocketData], field by field *)

Section ProcessFacts.

Variable Math_atan2 : Q -> Q -> Q.
Variables (data : WebSocketResponse.t) (now : Q) (dateNow : Z) (s : App.t).

Local Abbreviation s' := (processWebSocketData Math_atan2 data now dateNow s).

(** The state of the [forEach] over [data.plan_data] when it is done. *)
Local Abbreviation merged :=
  (fold_left (mergePerson Math_atan2 (App.customers s) now dateNow)
     (WebSocketResponse.plan_data data)
     (mkMerge [] ∅ (App.entryTimesRef s))).

Lemma process_customers :
  App.customers s'
  = map (mergedCustomer Math_atan2 (App.customers s) now)
      (WebSocketResponse.plan_data data).
Proof.
  unfold processWebSocketData.
  destruct (fold_left (handleExit _ _) _ _) as [ds times]. simpl.
  by rewrite mergePerson_customers.
Qed.

Lemma process_exits :
  (App.dailyStats s', App.entryTimesRef s')
  = fold_left (handleExit (activeIds merged) dateNow) (App.customers s)
      (updateStats data (App.dailyStats s), entryTimes merged).
Proof.
  unfold processWebSocketData.
  by destruct (fold_left (handleExit _ _) _ _) as [ds times].
Qed.

Lemma process_frame :
  App.currentStoreIdx s' = App.currentStoreIdx s
  /\ App.store s' = App.store s
  /\ App.heatmap s' = App.heatmap s
  /\ App.heatmapAccumulatorRef s' = App.heatmapAccumulatorRef s
  /\ App.lastTimeRef s' = App.lastTimeRef s.
Proof.
  unfold processWebSocketData.
  by destruct (fold_left (handleExit _ _) _ _) as [ds times].
Qed.

Lemma process_ids :
  map Customer.id (App.customers s')
  = map PlanData.track_id (WebSocketResponse.plan_data data).
Proof.
  rewrite process_customers, map_map. apply map_ext.
  intros p. apply mergedCustomer_id.
Qed.

Lemma merged_activeIds k :
  k ∈ activeIds merged
  <-> k ∈ map PlanData.track_id (WebSocketResponse.plan_data data).
Proof.
  rewrite mergePerson_activeIds. simpl.
  split; [intros [H|H]; [done | by apply elem_of_empty in H] | by left].
Qed.

Lemma process_counters :
  sameCounters (App.dailyStats s') (updateStats data (App.dailyStats s)).
Proof.
  change (App.dailyStats s') with (App.dailyStats s', App.entryTimesRef s').1.
  rewrite process_exits. apply exits_counters.
Qed.

(** The entry time of an id that the update lists stays as it is when
    the id is live or has an entry time already. *)
Lemma process_times_listed k :
  k ∈ map PlanData.track_id (WebSocketResponse.plan_data data) ->
  is_Some (findCustomer k (App.customers s))
  \/ is_Some (App.entryTimesRef s !! k) ->
  App.entryTimesRef s' !! k = App.entryTimesRef s !! k.
Proof.
  intros Hin Hk.
  change (App.entryTimesRef s') with (App.dailyStats s', App.entryTimesRef s').2.
  rewrite process_exits, exits_times_other.
  - simpl. destruct Hk as [Hk|[t Hk]].
    + by apply mergePerson_times_other.
    + rewrite Hk. by apply mergePerson_times_kept.
  - intros _ _ _. by apply merged_activeIds.
Qed.

End ProcessFacts.

Section MessageProperties.

Variable Math_atan2 : Q -> Q -> Q.

(** C10. A merge whose people list has, at index [i], a record with the
    id of a live entity puts at index [i] of the new live set that entity
    with its [pos], [path], [color] and every other field but [target],
    [angle], [age] and [state] as they were; those four come from the
    record, [state] being [WALKING]; the entry time recorded for the id
    is the one recorded before. *)
Theorem C10_merge_keeps_display_state
    (data : WebSocketResponse.t) (now : Q) (dateNow : Z) (s : App.t)
    (i : nat) (p : PlanData.t) (existing : Customer.t) :
  WebSocketResponse.plan_data data !! i = Some p ->
  findCustomer (PlanData.track_id p) (App.customers s) = Some existing ->
  let s' := processWebSocketData Math_atan2 data now dateNow s in
  exists c',
    App.customers s' !! i = Some c'
    /\ Customer.id c' = Customer.id existing
    /\ Customer.pos c' = Customer.pos existing
    /\ Customer.path c' = Customer.path existing
    /\ Customer.color c' = Customer.color existing
    /\ Customer.gender c' = Customer.gender existing
    /\ Customer.targetId c' = Customer.targetId existing
    /\ Customer.speed c' = Customer.speed existing
    /\ Customer.browsingTimer c' = Customer.browsingTimer existing
    /\ Customer.dwellStartTime c' = Customer.dwellStartTime existing
    /\ Customer.totalStartTime c' = Customer.totalStartTime existing
    /\ Customer.hasCountedForZone c' = Customer.hasCountedForZone existing
    /\ Customer.target c' = targetPos p
    /\ Customer.angle c' = targetAngle Math_atan2 p
    /\ Customer.age c' = Some (PlanData.age p)
    /\ Customer.state c' = WALKING
    /\ App.entryTimesRef s' !! Customer.id existing
       = App.entryTimesRef s !! Customer.id existing.
Proof.
  intros Hp Hfind s'.
  exists (updateExisting Math_atan2 existing p). split.
  { subst s'. rewrite process_customers, list_lookup_fmap, Hp. simpl.
    unfold mergedCustomer. by rewrite Hfind. }
  repeat (split; [reflexivity|]).
  rewrite (findCustomer_id _ _ _ Hfind). subst s'.
  apply process_times_listed.
  - apply list_elem_of_fmap. exists p. split; [done|].
    by apply list_elem_of_lookup_2 in Hp.
  - left. by exists existing.
Qed.


End MessageProperties.

Lemma run_app atan2 (before after : list Event) (s : App.t) :
  run atan2 (before ++ after) s
  = match run atan2 before s with
    | Some s' => run atan2 after s'
    | None => None
    end.
Proof.
  revert s. induction before as [|e before IH]; intros s; simpl; [done|].
  destruct (handle atan2 e s); [apply IH | done].
Qed.

Section RetirementProperties.

Variable Math_atan2 : Q -> Q -> Q.

(** C8. A payload that does not parse, or whose wrapper type is not
    ['device_data'], or that has no [data], leaves the whole component
    state (live set, heatmaps, statistics, entry times) as it is, and the
    events after it are handled as if it had not arrived. *)
Theorem C8_malformed_message_dropped
    (payload : option WebSocketMessage.t) (now : Q) (dateNow : Z) :
  malformed payload ->
  (forall s, onmessage Math_atan2 payload now dateNow s = s)
  /\ (forall before after s,
        run Math_atan2 (before ++ Message payload now dateNow :: after) s
        = run Math_atan2 (before ++ after) s).
Proof.
  intros Hbad.
  assert (forall s, onmessage Math_atan2 payload now dateNow s = s) as Hdrop.
  { intros s. unfold onmessage.
    destruct payload as [message|]; [|done].
    destruct (WebSocketMessage.data message) as [data|] eqn:Hd; [|done].
    destruct Hbad as [Ht|Hn]; [|congruence].
    by destruct (String.eqb_spec (WebSocketMessage.type message) "device_data"). }
  split; [done|].
  intros before after s. rewrite !run_app.
  destruct (run Math_atan2 before s) as [s1|]; [|done].
  simpl. by rewrite Hdrop.
Qed.

Lemma mergePerson_ext prev prev' now dateNow l m :
  (forall p, p ∈ l ->
     findCustomer (PlanData.track_id p) prev
     = findCustomer (PlanData.track_id p) prev') ->
  fold_left (mergePerson Math_atan2 prev now dateNow) l m
  = fold_left (mergePerson Math_atan2 prev' now dateNow) l m.
Proof.
  revert m. induction l as [|p l IH]; intros m Hl; simpl; [done|].
  rewrite IH by (intros q Hq; apply Hl, elem_of_cons; by right).
  f_equal. unfold mergePerson.
  rewrite (Hl p) by (apply elem_of_cons; by left). done.
Qed.

(** C4. Let [c] be a live entity, the only one with its id, whose id
    has the entry time [T0] (not zero, as every [Date.now()] is). A merge
    at [dateNow] whose people list does not contain the id retires it: the
    id is no longer live, its entry time is forgotten, and compared with
    the same merge of the live set without [c] there is exactly one more
    completed visit and exactly [dateNow - T0] more dwell time. When the
    update lists every other live entity, these are the increases over
    the statistics before the merge. *)
Theorem C4_retirement_counts_one_visit
    (data : WebSocketResponse.t) (now : Q) (dateNow : Z) (s : App.t)
    (before after : list Customer.t) (c : Customer.t) (T0 : Z) :
  App.customers s = (before ++ c :: after)%list ->
  Customer.id c ∉ map Customer.id (before ++ after) ->
  Customer.id c ∉ map PlanData.track_id (WebSocketResponse.plan_data data) ->
  App.entryTimesRef s !! Customer.id c = Some T0 ->
  T0 <> 0%Z ->
  let s' := processWebSocketData Math_atan2 data now dateNow s in
  let r := processWebSocketData Math_atan2 data now dateNow
             (withCustomers (before ++ after) s) in
  (Customer.id c ∉ map Customer.id (App.customers s'))
  /\ App.entryTimesRef s' !! Customer.id c = None
  /\ DailyStats.completedVisits (App.dailyStats s')
     = (DailyStats.completedVisits (App.dailyStats r) + 1)%Z
  /\ DailyStats.totalDwellTimeMs (App.dailyStats s')
     = (DailyStats.totalDwellTimeMs (App.dailyStats r) + (dateNow - T0))%Z
  /\ ((forall c', c' ∈ (before ++ after)%list ->
         Customer.id c' ∈
           map PlanData.track_id (WebSocketResponse.plan_data data)) ->
      DailyStats.completedVisits (App.dailyStats s')
      = (DailyStats.completedVisits (App.dailyStats s) + 1)%Z
      /\ DailyStats.totalDwellTimeMs (App.dailyStats s')
         = (DailyStats.totalDwellTimeMs (App.dailyStats s) + (dateNow - T0))%Z).
Proof.
  intros Hprev Huniq Hgone Hentry Hnz s' r.
  set (k := Customer.id c) in *.
  set (plan := WebSocketResponse.plan_data data) in *.
  pose proof (process_exits Math_atan2 data now dateNow s) as Hs.
  pose proof (process_exits Math_atan2 data now dateNow
                (withCustomers (before ++ after) s)) as Hr.
  fold s' in Hs. fold r in Hr. simpl in Hr. rewrite Hprev in Hs.
  (* the records see the same live entities with or without [c] *)
  rewrite (mergePerson_ext (before ++ c :: after) (before ++ after)) in Hs.
  2:{ intros p Hp. apply findCustomer_skip. fold k. intros E. apply Hgone.
      rewrite E. apply list_elem_of_fmap. by exists p. }
  fold plan in Hs, Hr.
  set (m := fold_left _ plan _) in *.
  assert (k ∉ activeIds m) as Hout.
  { subst m. rewrite mergePerson_activeIds. simpl. intros [H|H]; [done|].
    by apply elem_of_empty in H. }
  assert (entryTimes m !! k = Some T0) as Hm.
  { subst m. by apply mergePerson_times_kept. }
  set (st0 := (updateStats data (App.dailyStats s), entryTimes m)) in *.
  rewrite fold_left_app in Hs, Hr. simpl in Hs.
  set (st1 := fold_left _ before st0) in *.
  assert (st1.2 !! k = Some T0) as H1.
  { subst st1. rewrite exits_times_other; [done|].
    intros c' Hc' E. exfalso. apply Huniq. rewrite <- E.
    apply list_elem_of_fmap. exists c'. split; [done|].
    apply elem_of_app. by left. }
  assert (ahead k (dateNow - T0) st1 (handleExit (activeIds m) dateNow st1 c))
    as Hstep.
  { destruct st1 as [ds1 t1]. simpl in H1.
    rewrite (handleExit_retires _ _ _ _ _ T0) by done. by split. }
  apply (exits_ahead (activeIds m) dateNow k _ after) in Hstep.
  2:{ intros c' Hc' E. apply Huniq. rewrite <- E.
      apply list_elem_of_fmap. exists c'. split; [done|].
      apply elem_of_app. by right. }
  rewrite <- Hs, <- Hr in Hstep. destruct Hstep as [Hds Htimes].
  simpl in Hds, Htimes.
  split; [|split; [|split; [|split]]].
  - subst s'. by rewrite process_ids.
  - rewrite Htimes. apply lookup_delete_eq.
  - by rewrite Hds.
  - by rewrite Hds.
  - intros Hall.
    assert (App.dailyStats r = updateStats data (App.dailyStats s)) as Er.
    { assert (fold_left (handleExit (activeIds m) dateNow) after st1 = st0) as E.
      { subst st1. rewrite <- fold_left_app. apply exits_all_listed.
        intros c' Hc'. subst m. rewrite mergePerson_activeIds. left.
        by apply Hall. }
      rewrite E in Hr. by inversion Hr. }
    rewrite Hds, Er. by split.
Qed.

End RetirementProperties.

(** ** Facts about [updateSimulation] *)

Lemma Qgt_bool_iff a b : Qgt_bool a b = true <-> b < a.
Proof.
  unfold Qgt_bool. rewrite negb_true_iff, <- not_true_iff_false, Qle_bool_iff.
  split; [apply Qnot_le_lt | apply Qlt_not_le].
Qed.

Lemma dist2_nonneg p q : 0 <= dist2 p q.
Proof.
  unfold dist2.
  generalize (Point.x p - Point.x q) (Point.y p - Point.y q). intros u v. nra.
Qed.

(** [Math.sqrt(d2) > 30] is the test [900 < d2] of [farFromTrail]. *)
Lemma distance_gt_30_iff p q :
  (30 < distance p q)%R <-> Qgt_bool (dist2 p q) 900 = true.
Proof.
  rewrite Qgt_bool_iff. unfold distance.
  assert (sqrt 900 = 30)%R as E.
  { replace 900%R with (30 * 30)%R by lra. apply sqrt_square. lra. }
  assert (Q2R 900 = 900%R) as E9 by (unfold Q2R; simpl; lra).
  pose proof (Qle_Rle _ _ (dist2_nonneg p q)) as H0.
  replace (Q2R 0) with 0%R in H0 by (unfold Q2R; simpl; lra).
  split.
  - intros H. apply Rlt_Qlt. rewrite E9. rewrite <- E in H.
    apply sqrt_lt_0_alt in H. exact H.
  - intros H. apply Qlt_Rlt in H. rewrite E9 in H. rewrite <- E.
    apply sqrt_lt_1_alt. lra.
Qed.


Lemma moveCustomer_id c : Customer.id (moveCustomer c) = Customer.id c.
Proof. unfold moveCustomer. by destruct (advance c). Qed.


Lemma moveCustomer_pos c : Customer.pos (moveCustomer c) = (advance c).1.
Proof. unfold moveCustomer. by destruct (advance c). Qed.

Lemma moveCustomer_path c : Customer.path (moveCustomer c) = (advance c).2.
Proof. unfold moveCustomer. by destruct (advance c). Qed.

Lemma frameCustomers_customers store dt acc prev :
  (frameCustomers store dt acc prev).2 = map moveCustomer prev.
Proof.
  revert acc. induction prev as [|c prev IH]; intros acc; simpl; [done|].
  specialize (IH (warm store dt acc (Customer.pos (moveCustomer c)))).
  destruct (frameCustomers store dt _ prev) as [acc2 rest']. simpl in *.
  by rewrite IH.
Qed.

Lemma update_customers time s :
  App.customers (updateSimulation time s) = map moveCustomer (App.customers s).
Proof.
  unfold updateSimulation.
  rewrite <- (frameCustomers_customers (App.store s) (elapsedFrames time s)
                (App.heatmapAccumulatorRef s)).
  by destruct (frameCustomers _ _ _ _).
Qed.


Lemma update_frame time s :
  App.currentStoreIdx (updateSimulation time s) = App.currentStoreIdx s
  /\ App.store (updateSimulation time s) = App.store s
  /\ App.dailyStats (updateSimulation time s) = App.dailyStats s
  /\ App.entryTimesRef (updateSimulation time s) = App.entryTimesRef s
  /\ App.lastTimeRef (updateSimulation time s) = time.
Proof. unfold updateSimulation. by destruct (frameCustomers _ _ _ _). Qed.

Lemma slice15_length path : (length (slice15 path) <= 15)%nat.
Proof. unfold slice15. rewrite length_drop. lia. Qed.

(** What a frame does to the trail: nothing, or the moved position is
    appended to the last 15 points, and then the trail was empty or its
    last point is more than 30 units from the moved position. *)
Lemma advance_path c :
  (advance c).2 = Customer.path c
  \/ ((advance c).2 = (slice15 (Customer.path c) ++ [(advance c).1])%list
      /\ (Customer.path c = []
          \/ exists p, last (Customer.path c) = Some p
                       /\ (30 < distance (advance c).1 p)%R)).
Proof.
  unfold advance.
  destruct (significant _ _); [|by left].
  destruct (farFromTrail _ _) eqn:F; [|by left].
  right. split; [done|]. unfold farFromTrail in F.
  destruct (last (Customer.path c)) as [p|] eqn:L.
  - right. exists p. split; [done|]. by apply distance_gt_30_iff.
  - left. by apply last_None in L.
Qed.

Lemma moveCustomer_path_length c :
  (length (Customer.path c) <= 16)%nat ->
  (length (Customer.path (moveCustomer c)) <= 16)%nat.
Proof.
  intros H. rewrite moveCustomer_path.
  destruct (advance_path c) as [->|[-> _]]; [done|].
  rewrite length_app. pose proof (slice15_length (Customer.path c)).
  simpl. lia.
Qed.

(** ** Invariants of the component *)

Section Invariants.

Variable Math_atan2 : Q -> Q -> Q.

Lemma select_cases idx s s1 :
  setCurrentStoreIdx idx s = Some s1 ->
  (idx = App.currentStoreIdx s /\ s1 = s)
  \/ (idx <> App.currentStoreIdx s
      /\ exists store, STORES !! idx = Some store
                       /\ s1 = resetHeatmaps idx store s).
Proof.
  unfold setCurrentStoreIdx. intros H.
  destruct (decide (idx = App.currentStoreIdx s)) as [|Hne].
  - left. split; congruence.
  - right. split; [done|]. destruct (STORES !! idx) as [store|]; [|done].
    exists store. split; [done | congruence].
Qed.

Lemma onmessage_cases payload now dateNow s :
  onmessage Math_atan2 payload now dateNow s = s
  \/ exists message data,
       payload = Some message
       /\ WebSocketMessage.data message = Some data
       /\ onmessage Math_atan2 payload now dateNow s
          = processWebSocketData Math_atan2 data now dateNow s.
Proof.
  unfold onmessage. destruct payload as [message|]; [|by left].
  destruct (WebSocketMessage.data message) as [data|] eqn:E; [|by left].
  destruct (String.eqb _ _); [|by left].
  right. by exists message, data.
Qed.

Lemma handle_unique_ids e s s1 :
  distinctIds e -> NoDup (map Customer.id (App.customers s)) ->
  handle Math_atan2 e s = Some s1 ->
  NoDup (map Customer.id (App.customers s1)).
Proof.
  intros Hd Hs He. destruct e as [payload now dateNow|time|idx]; simpl in He.
  - injection He as <-.
    destruct (onmessage_cases payload now dateNow s)
      as [->|(message & data & -> & Hdata & ->)]; [done|].
    rewrite process_ids. simpl in Hd. by rewrite Hdata in Hd.
  - injection He as <-. rewrite update_customers, map_map.
    erewrite map_ext; [exact Hs|]. intros c. apply moveCustomer_id.
  - apply select_cases in He as [[_ ->]|(_ & store & _ & ->)]; [done|].
    simpl. apply NoDup_nil_2.
Qed.

(** C1 (as amended). After a merge the live set has one entity for each
    record of the people list, in the order of the list and with the id
    of the record. So when every update lists an id at most once, the
    ids of the live entities stay pairwise distinct through every
    sequence of merges, frames and store selections. *)
Theorem C1_unique_ids_when_updates_list_ids_once
    (events : list Event) (s s' : App.t) :
  Forall distinctIds events ->
  NoDup (map Customer.id (App.customers s)) ->
  run Math_atan2 events s = Some s' ->
  NoDup (map Customer.id (App.customers s'))
  /\ forall data now dateNow,
       map Customer.id
         (App.customers (processWebSocketData Math_atan2 data now dateNow s'))
       = map PlanData.track_id (WebSocketResponse.plan_data data).
Proof.
  intros Hd Hs Hrun. split; [|intros; apply process_ids].
  revert s Hs Hrun. induction Hd as [|e events He Hd IH]; intros s Hs Hrun.
  - simpl in Hrun. congruence.
  - simpl in Hrun. destruct (handle Math_atan2 e s) as [s1|] eqn:E; [|done].
    apply (IH s1); [|done]. by apply (handle_unique_ids e s).
Qed.

Lemma mergedCustomer_path_length prev now p :
  (forall c, c ∈ prev -> (length (Customer.path c) <= 16)%nat) ->
  (length (Customer.path (mergedCustomer Math_atan2 prev now p)) <= 16)%nat.
Proof.
  intros Hprev. unfold mergedCustomer.
  destruct (findCustomer _ prev) as [c|] eqn:E; simpl; [|lia].
  apply Hprev. unfold findCustomer in E. apply find_some in E as [E _].
  by apply list_elem_of_In.
Qed.

Lemma handle_trails e s s1 :
  (forall c, c ∈ App.customers s -> (length (Customer.path c) <= 16)%nat) ->
  handle Math_atan2 e s = Some s1 ->
  forall c, c ∈ App.customers s1 -> (length (Customer.path c) <= 16)%nat.
Proof.
  intros Hs He c Hc. destruct e as [payload now dateNow|time|idx]; simpl in He.
  - injection He as <-.
    destruct (onmessage_cases payload now dateNow s)
      as [E|(message & data & -> & Hdata & E)]; rewrite E in Hc; [by apply Hs|].
    rewrite process_customers in Hc.
    apply list_elem_of_fmap in Hc as (p & -> & _).
    by apply mergedCustomer_path_length.
  - injection He as <-. rewrite update_customers in Hc.
    apply list_elem_of_fmap in Hc as (c0 & -> & Hc0).
    by apply moveCustomer_path_length, Hs.
  - apply select_cases in He as [[_ ->]|(_ & store & _ & ->)]; [by apply Hs|].
    simpl in Hc. by apply elem_of_nil in Hc.
Qed.

Lemma run_trails events s s' :
  (forall c, c ∈ App.customers s -> (length (Customer.path c) <= 16)%nat) ->
  run Math_atan2 events s = Some s' ->
  forall c, c ∈ App.customers s' -> (length (Customer.path c) <= 16)%nat.
Proof.
  revert s. induction events as [|e events IH]; intros s Hs Hrun.
  - simpl in Hrun. by injection Hrun as <-.
  - simpl in Hrun. destruct (handle Math_atan2 e s) as [s1|] eqn:E; [|done].
    apply (IH s1); [|done]. by apply (handle_trails e s).
Qed.

(** C7. After any sequence of merges, frames and store selections from
    the first render, the trail of every live entity has at most 16
    points; and the next frame leaves the trail as it is or appends the
    moved position to its last 15 points, the latter only when the trail
    is empty or its last point is more than 30 units from the moved
    position. *)
Theorem C7_trail_bounded (t0 : Q) (events : list Event) (s' : App.t) :
  run Math_atan2 events (initial t0) = Some s' ->
  forall c, c ∈ App.customers s' ->
    (length (Customer.path c) <= 16)%nat
    /\ (length (Customer.path (moveCustomer c)) <= 16)%nat
    /\ (Customer.path (moveCustomer c) = Customer.path c
        \/ (Customer.path (moveCustomer c)
            = (slice15 (Customer.path c) ++ [Customer.pos (moveCustomer c)])%list
            /\ (Customer.path c = []
                \/ exists p, last (Customer.path c) = Some p
                     /\ (30 < distance (Customer.pos (moveCustomer c)) p)%R))).
Proof.
  intros Hrun c Hc.
  assert (length (Customer.path c) <= 16)%nat as Hlen.
  { apply (run_trails events (initial t0) s'); [|done|done].
    intros c0 Hc0. simpl in Hc0. by apply elem_of_nil in Hc0. }
  split; [done|]. split; [by apply moveCustomer_path_length|].
  rewrite moveCustomer_path, moveCustomer_pos. apply advance_path.
Qed.

(** C9 (as amended). Selecting another store empties the live set and
    replaces both heatmaps by zeros of the size of the grid of the new
    store; the statistics and the entry times stay. So every record of
    the next update makes a new entity (at its reported position, with a
    trail of that one point), but an id that has an entry time from
    before the selection keeps that entry time. *)
Theorem C9_store_change_resets_view_only
    (idx : nat) (s s' : App.t) :
  setCurrentStoreIdx idx s = Some s' ->
  idx <> App.currentStoreIdx s ->
  exists store,
    STORES !! idx = Some store
    /\ App.store s' = store
    /\ App.customers s' = []
    /\ App.heatmapAccumulatorRef s'
       = replicate (Z.to_nat (COLS store * ROWS store)) 0
    /\ App.heatmap s' = replicate (Z.to_nat (COLS store * ROWS store)) 0
    /\ App.dailyStats s' = App.dailyStats s
    /\ App.entryTimesRef s' = App.entryTimesRef s
    /\ forall data now dateNow,
         let s'' := processWebSocketData Math_atan2 data now dateNow s' in
         App.customers s''
         = map (newCustomer Math_atan2 now) (WebSocketResponse.plan_data data)
         /\ forall k T0,
              App.entryTimesRef s !! k = Some T0 ->
              App.entryTimesRef s'' !! k = Some T0.
Proof.
  intros Hsel Hne.
  apply select_cases in Hsel as [[? _]|(_ & store & Hstore & ->)]; [done|].
  exists store. repeat (split; [done|]).
  intros data now dateNow s''. split.
  - subst s''. by rewrite process_customers.
  - intros k T0 Hk. subst s''.
    change (App.entryTimesRef ?a) with (App.dailyStats a, App.entryTimesRef a).2.
    rewrite process_exits. simpl. by apply mergePerson_times_kept.
Qed.

End Invariants.

(** ** The interpolation *)

Lemma significant_true pos target :
  significant pos target = true
  <-> 1 # 2 < Qabs (Point.x target - Point.x pos)
      \/ 1 # 2 < Qabs (Point.y target - Point.y pos).
Proof. unfold significant. by rewrite orb_true_iff, !Qgt_bool_iff. Qed.


Lemma advance_pos c :
  (advance c).1
  = if significant (Customer.pos c) (Customer.target c)
    then lerp (Customer.pos c) (Customer.target c)
    else Customer.pos c.
Proof.
  unfold advance. destruct (significant _ _); [|done].
  by destruct (farFromTrail _ _).
Qed.











(** C3 (as amended). A frame moves every live entity past the threshold
    by [0.15] times its displacement, on each axis, whatever the frame
    time (and so whatever the elapsed frames) is. *)
Theorem C3_frame_moves_fixed_fraction
    (time : Q) (s : App.t) (i : nat) (c : Customer.t) :
  App.customers s !! i = Some c ->
  1 # 2 < Qabs (Point.x (Customer.target c) - Point.x (Customer.pos c))
  \/ 1 # 2 < Qabs (Point.y (Customer.target c) - Point.y (Customer.pos c)) ->
  exists c',
    App.customers (updateSimulation time s) !! i = Some c'
    /\ Point.x (Customer.pos c')
       == Point.x (Customer.pos c)
          + (15 # 100) * (Point.x (Customer.target c) - Point.x (Customer.pos c))
    /\ Point.y (Customer.pos c')
       == Point.y (Customer.pos c)
          + (15 # 100) * (Point.y (Customer.target c) - Point.y (Customer.pos c)).
Proof.
  intros Hc Hfar. apply significant_true in Hfar.
  exists (moveCustomer c). split.
  - by rewrite update_customers, list_lookup_fmap, Hc.
  - rewrite moveCustomer_pos, advance_pos, Hfar. unfold lerp, lerpFactor. simpl.
    split; ring.
Qed.


(** ** The heatmap accumulator *)







Section Heatmap.

Variable Math_atan2 : Q -> Q -> Q.




End Heatmap.

(** ** The properties on sample inputs *)

(** C1, as stated, fails: an update that lists the id [a] twice leaves two
    live entities with that id. *)
Lemma C1_counterexample :
  let s := processWebSocketData Sample.atan2
             (Sample.update 1 [Sample.person "a" 0 0; Sample.person "a" 5 5])
             0 1000 (initial 0) in
  map Customer.id (App.customers s) = ["a"; "a"]
  /\ ~ NoDup (map Customer.id (App.customers s)).
Proof.
  intros s. assert (map Customer.id (App.customers s) = ["a"; "a"]) as E
    by reflexivity.
  split; [done|]. rewrite E. intros H.
  apply NoDup_cons_1_1 in H. apply H. apply elem_of_cons. by left.
Qed.

Lemma C1_witness :
  let events := [Message (Sample.message 1 [Sample.person "a" 0 0]) 0 1000;
                 Frame 16; Select 1] in
  let s' := resetHeatmaps 1
              (StoreConfig.mk "coldroom2" "Makro St.57 (Bangphil-Coldroom2)"
                 1118 690 (Point.mk 559 650))
              (updateSimulation 16
                 (processWebSocketData Sample.atan2
                    (Sample.update 1 [Sample.person "a" 0 0]) 0 1000 (initial 0))) in
  Forall distinctIds events
  /\ NoDup (map Customer.id (App.customers (initial 0)))
  /\ run Sample.atan2 events (initial 0) = Some s'
  /\ NoDup (map Customer.id (App.customers s')).
Proof.
  intros events s'.
  assert (Forall distinctIds events) as Hd.
  { repeat constructor. apply not_elem_of_nil. }
  assert (NoDup (map Customer.id (App.customers (initial 0)))) as Hs
    by apply NoDup_nil_2.
  assert (run Sample.atan2 events (initial 0) = Some s') as Hrun by reflexivity.
  split; [exact Hd|]. split; [exact Hs|]. split; [exact Hrun|].
  exact (proj1 (C1_unique_ids_when_updates_list_ids_once
                  Sample.atan2 events (initial 0) s' Hd Hs Hrun)).
Defined.

(** C3, as stated, fails: with two elapsed frames the entity still moves
    by [0.15] of its displacement, from [0] to [1.5], not by twice that. *)
Lemma C3_counterexample :
  let s := Sample.walking in
  let time := 3334 # 100 in
  elapsedFrames time s == 2
  /\ exists c c',
       App.customers s !! 0%nat = Some c
       /\ App.customers (updateSimulation time s) !! 0%nat = Some c'
       /\ significant (Customer.pos c) (Customer.target c) = true
       /\ Point.x (Customer.pos c') == 15 # 10
       /\ ~ Point.x (Customer.pos c')
            == Point.x (Customer.pos c)
               + (15 # 100)
                 * (Point.x (Customer.target c) - Point.x (Customer.pos c))
                 * elapsedFrames time s.
Proof.
  intros s time. split; [reflexivity|].
  eexists _, _. split; [reflexivity|]. split; [reflexivity|].
  split; [reflexivity|]. split; [reflexivity|].
  intros H. vm_compute in H. discriminate H.
Qed.

Lemma C3_witness :
  let s := Sample.walking in
  let c := updateExisting Sample.atan2 (newCustomer Sample.atan2 5 (Sample.person "a" 0 0))
             (Sample.person "a" 10 0) in
  App.customers s !! 0%nat = Some c
  /\ (1 # 2 < Qabs (Point.x (Customer.target c) - Point.x (Customer.pos c))
      \/ 1 # 2 < Qabs (Point.y (Customer.target c) - Point.y (Customer.pos c)))
  /\ exists c',
       App.customers (updateSimulation (3334 # 100) s) !! 0%nat = Some c'
       /\ Point.x (Customer.pos c')
          == Point.x (Customer.pos c)
             + (15 # 100) * (Point.x (Customer.target c) - Point.x (Customer.pos c))
       /\ Point.y (Customer.pos c')
          == Point.y (Customer.pos c)
             + (15 # 100) * (Point.y (Customer.target c) - Point.y (Customer.pos c)).
Proof.
  intros s c.
  assert (App.customers s !! 0%nat = Some c) as Hc by reflexivity.
  assert (1 # 2 < Qabs (Point.x (Customer.target c) - Point.x (Customer.pos c))
          \/ 1 # 2 < Qabs (Point.y (Customer.target c) - Point.y (Customer.pos c)))
    as Hfar by (left; reflexivity).
  split; [exact Hc|]. split; [exact Hfar|].
  exact (C3_frame_moves_fixed_fraction (3334 # 100) s 0 c Hc Hfar).
Defined.


(** The scenario of the specification: 42 entries, then a report of 0. *)
Example entries_42_then_0 :
  let s' := processWebSocketData Sample.atan2 (Sample.update 0 []) 7 3000
              Sample.two in
  DailyStats.totalCustomers (App.dailyStats s') = 42%Z.
Proof. reflexivity. Qed.

(** C9, as stated, fails: [a] is first seen at 1000, another store is
    selected, [a] is reported again at 5000 and is gone at 6000; its visit
    is counted from 1000, not from 5000. *)
Lemma C9_counterexample :
  let seen := [Message (Sample.message 1 [Sample.person "a" 0 0]) 0 1000;
               Select 1;
               Message (Sample.message 1 [Sample.person "a" 0 0]) 0 5000] in
  let gone := [Message (Sample.message 1 []) 0 6000] in
  exists s s',
    run Sample.atan2 seen (initial 0) = Some s
    /\ run Sample.atan2 gone s = Some s'
    /\ App.entryTimesRef s !! "a" = Some 1000%Z
    /\ App.entryTimesRef s !! "a" <> Some 5000%Z
    /\ DailyStats.totalDwellTimeMs (App.dailyStats s') = 5000%Z
    /\ DailyStats.totalDwellTimeMs (App.dailyStats s') <> (6000 - 5000)%Z.
Proof.
  intros seen gone. eexists _, _.
  split; [reflexivity|]. split; [reflexivity|].
  split; [by vm_compute|]. split; [by vm_compute|].
  split; [by vm_compute|]. by vm_compute.
Qed.

Lemma C9_witness :
  let s := Sample.two in
  let s' := resetHeatmaps 1
              (StoreConfig.mk "coldroom2" "Makro St.57 (Bangphil-Coldroom2)"
                 1118 690 (Point.mk 559 650)) s in
  setCurrentStoreIdx 1 s = Some s'
  /\ 1%nat <> App.currentStoreIdx s
  /\ App.customers s' = []
  /\ App.entryTimesRef s' = App.entryTimesRef s.
Proof.
  intros s s'.
  assert (setCurrentStoreIdx 1 s = Some s') as Hsel by reflexivity.
  assert (1%nat <> App.currentStoreIdx s) as Hne by discriminate.
  split; [exact Hsel|]. split; [exact Hne|].
  destruct (C9_store_change_resets_view_only Sample.atan2 1 s s' Hsel Hne)
    as (store & _ & _ & Hc & _ & _ & _ & Ht & _).
  exact (conj Hc Ht).
Defined.

Lemma C10_witness :
  let s := Sample.two in
  let data := Sample.update 42 [Sample.person "a" 10 0; Sample.person "b" 100 10] in
  let p := Sample.person "a" 10 0 in
  let existing := newCustomer Sample.atan2 5 (Sample.person "a" 0 0) in
  let s' := processWebSocketData Sample.atan2 data 6 2000 s in
  WebSocketResponse.plan_data data !! 0%nat = Some p
  /\ findCustomer (PlanData.track_id p) (App.customers s) = Some existing
  /\ exists c',
       App.customers s' !! 0%nat = Some c'
       /\ Customer.pos c' = Customer.pos existing
       /\ Customer.path c' = Customer.path existing
       /\ Customer.color c' = Customer.color existing
       /\ App.entryTimesRef s' !! Customer.id existing
          = App.entryTimesRef s !! Customer.id existing.
Proof.
  intros s data p existing s'.
  assert (WebSocketResponse.plan_data data !! 0%nat = Some p) as Hp
    by reflexivity.
  assert (findCustomer (PlanData.track_id p) (App.customers s) = Some existing)
    as Hfind by reflexivity.
  split; [exact Hp|]. split; [exact Hfind|].
  destruct (C10_merge_keeps_display_state Sample.atan2 data 6 2000 s 0 p
              existing Hp Hfind)
    as (c' & Hc' & _ & Hpos & Hpath & Hcolor & H).
  exists c'. repeat (split; [assumption|]).
  apply H.
Defined.

Lemma C8_witness :
  let payload :=
    Some (WebSocketMessage.mk "heartbeat" "cam-1" (Some (Sample.update 7 []))) in
  malformed payload
  /\ onmessage Sample.atan2 payload 7 3000 Sample.two = Sample.two.
Proof.
  intros payload.
  assert (malformed payload) as Hbad by (left; discriminate).
  split; [exact Hbad|].
  exact (proj1 (C8_malformed_message_dropped Sample.atan2 payload 7 3000 Hbad)
           Sample.two).
Defined.

Lemma C4_witness :
  let s := Sample.two in
  let a := newCustomer Sample.atan2 5 (Sample.person "a" 0 0) in
  let b := newCustomer Sample.atan2 5 (Sample.person "b" 100 10) in
  let data := Sample.update 42 [Sample.person "b" 100 10] in
  let s' := processWebSocketData Sample.atan2 data 6 4500 s in
  App.customers s = ([] ++ a :: [b])%list
  /\ (Customer.id a ∉ map Customer.id ([] ++ [b]))
  /\ (Customer.id a ∉ map PlanData.track_id (WebSocketResponse.plan_data data))
  /\ App.entryTimesRef s !! Customer.id a = Some 1000%Z
  /\ 1000%Z <> 0%Z
  /\ DailyStats.completedVisits (App.dailyStats s')
     = (DailyStats.completedVisits (App.dailyStats s) + 1)%Z
  /\ DailyStats.totalDwellTimeMs (App.dailyStats s')
     = (DailyStats.totalDwellTimeMs (App.dailyStats s) + (4500 - 1000))%Z.
Proof.
  intros s a b data s'.
  assert (App.customers s = ([] ++ a :: [b])%list) as Hprev by reflexivity.
  assert (Customer.id a ∉ map Customer.id ([] ++ [b])) as Huniq.
  { apply not_elem_of_cons. split; [discriminate | apply not_elem_of_nil]. }
  assert (Customer.id a
          ∉ map PlanData.track_id (WebSocketResponse.plan_data data)) as Hgone.
  { apply not_elem_of_cons. split; [discriminate | apply not_elem_of_nil]. }
  assert (App.entryTimesRef s !! Customer.id a = Some 1000%Z) as Hentry
    by (vm_compute; reflexivity).
  assert (1000%Z <> 0%Z) as Hnz by discriminate.
  repeat (split; [assumption|]).
  destruct (C4_retirement_counts_one_visit Sample.atan2 data 6 4500 s [] [b] a
              1000 Hprev Huniq Hgone Hentry Hnz) as (_ & _ & _ & _ & Hall).
  apply Hall. intros c' Hc'. apply list_elem_of_singleton in Hc'. subst c'.
  apply elem_of_cons. by left.
Defined.

Lemma C7_witness :
  let events := [Message (Sample.message 1 [Sample.person "a" 0 0]) 0 1000;
                 Message (Sample.message 1 [Sample.person "a" 400 0]) 1 1100;
                 Frame 16] in
  let s' := updateSimulation 16
              (processWebSocketData Sample.atan2
                 (Sample.update 1 [Sample.person "a" 400 0]) 1 1100
                 (processWebSocketData Sample.atan2
                    (Sample.update 1 [Sample.person "a" 0 0]) 0 1000 (initial 0))) in
  let c := moveCustomer
             (updateExisting Sample.atan2
                (newCustomer Sample.atan2 0 (Sample.person "a" 0 0))
                (Sample.person "a" 400 0)) in
  run Sample.atan2 events (initial 0) = Some s'
  /\ c ∈ App.customers s'
  /\ length (Customer.path c) = 2%nat
  /\ (length (Customer.path c) <= 16)%nat.
Proof.
  intros events s' c.
  assert (run Sample.atan2 events (initial 0) = Some s') as Hrun by reflexivity.
  assert (c ∈ App.customers s') as Hc.
  { replace (App.customers s') with [c] by reflexivity.
    apply elem_of_cons. by left. }
  split; [exact Hrun|]. split; [exact Hc|]. split; [reflexivity|].
  exact (proj1 (C7_trail_bounded Sample.atan2 0 events s' Hrun c Hc)).
Defined.



(** * Further properties *)

(** ** Merging the same update again *)

Section Idempotence.

Variable Math_atan2 : Q -> Q -> Q.

Lemma updateExisting_merged prev now p :
  updateExisting Math_atan2 (mergedCustomer Math_atan2 prev now p) p
  = mergedCustomer Math_atan2 prev now p.
Proof.
  unfold mergedCustomer. by destruct (findCustomer _ prev).
Qed.

(** In a list of customers made from records with distinct ids, the
    customer found for the id of a record is the one made from it. *)
Lemma findCustomer_merged prev now plan p :
  NoDup (map PlanData.track_id plan) -> p ∈ plan ->
  findCustomer (PlanData.track_id p)
    (map (mergedCustomer Math_atan2 prev now) plan)
  = Some (mergedCustomer Math_atan2 prev now p).
Proof.
  induction plan as [|q plan IH]; intros Hnd Hp.
  - by apply elem_of_nil in Hp.
  - simpl in Hnd. apply NoDup_cons in Hnd as [Hq Hnd].
    unfold findCustomer. simpl. rewrite mergedCustomer_id.
    destruct (String.eqb_spec (PlanData.track_id q) (PlanData.track_id p)) as [E|E].
    + apply elem_of_cons in Hp as [->|Hp]; [done|].
      exfalso. apply Hq. rewrite E. apply list_elem_of_fmap. by exists p.
    + apply elem_of_cons in Hp as [->|Hp]; [done|]. by apply IH.
Qed.

Lemma mergePerson_times_live prev now dateNow l m :
  (forall p, p ∈ l -> is_Some (findCustomer (PlanData.track_id p) prev)) ->
  entryTimes (fold_left (mergePerson Math_atan2 prev now dateNow) l m)
  = entryTimes m.
Proof.
  revert m. induction l as [|p l IH]; intros m Hl; simpl; [done|].
  rewrite IH by (intros q Hq; apply Hl, elem_of_cons; by right).
  unfold mergePerson.
  destruct (Hl p) as [c ->]; [apply elem_of_cons; by left | done].
Qed.

Lemma updateStats_again data ds ds' :
  sameCounters ds' (updateStats data ds) -> updateStats data ds' = ds'.
Proof.
  intros (H1 & H2 & H3 & H4). destruct ds'. unfold updateStats in *.
  simpl in *. subst.
  f_equal.
  - by destruct (0 <? WebSocketResponse.entry_number data)%Z eqn:E; rewrite ?E.
  - by destruct (0 <? WebSocketResponse.short_dwell_number data)%Z eqn:E;
      rewrite ?E.
Qed.

(** X1. When an update lists every id at most once, merging it a second
    time, at any later time, changes nothing at all: the live set, the
    statistics, the entry times and the image are the ones after the
    first merge, and no entity is retired. *)
Theorem merge_twice_is_merge_once
    (data : WebSocketResponse.t) (now now' : Q) (dateNow dateNow' : Z)
    (s : App.t) :
  NoDup (map PlanData.track_id (WebSocketResponse.plan_data data)) ->
  processWebSocketData Math_atan2 data now' dateNow'
    (processWebSocketData Math_atan2 data now dateNow s)
  = processWebSocketData Math_atan2 data now dateNow s.
Proof.
  intros Hnd.
  set (s1 := processWebSocketData Math_atan2 data now dateNow s).
  set (plan := WebSocketResponse.plan_data data) in *.
  assert (forall p, p ∈ plan ->
            findCustomer (PlanData.track_id p) (App.customers s1)
            = Some (mergedCustomer Math_atan2 (App.customers s) now p)) as Hfind.
  { intros p Hp. subst s1. rewrite process_customers.
    by apply findCustomer_merged. }
  pose proof (process_customers Math_atan2 data now' dateNow' s1) as Hc.
  pose proof (process_exits Math_atan2 data now' dateNow' s1) as He.
  destruct (process_frame Math_atan2 data now' dateNow' s1)
    as (Hi & Hst & Hh & Ha & Hl).
  fold plan in Hc, He.
  rewrite exits_all_listed in He.
  2:{ intros c Hc'. rewrite mergePerson_activeIds. left.
      subst s1. rewrite process_customers in Hc'.
      apply list_elem_of_fmap in Hc' as (p & -> & Hp).
      rewrite mergedCustomer_id. apply list_elem_of_fmap. by exists p. }
  rewrite mergePerson_times_live in He.
  2:{ intros p Hp. rewrite Hfind by done. by eexists. }
  simpl in He. injection He as Hds Htimes.
  rewrite (updateStats_again data (App.dailyStats s)) in Hds
    by (subst s1; apply process_counters).
  assert (App.customers (processWebSocketData Math_atan2 data now' dateNow' s1)
          = App.customers s1) as Hcs.
  { pose proof (process_customers Math_atan2 data now dateNow s) as E1.
    fold s1 plan in E1. rewrite Hc.
    transitivity (map (mergedCustomer Math_atan2 (App.customers s) now) plan);
      [|by rewrite E1].
    apply map_ext_in. intros p Hp. apply list_elem_of_In in Hp.
    unfold mergedCustomer at 1. rewrite (Hfind p Hp).
    apply updateExisting_merged. }
  assert (App.liveImage (processWebSocketData Math_atan2 data now' dateNow' s1)
          = App.liveImage s1) as Him.
  { subst s1. unfold processWebSocketData.
    destruct (fold_left (handleExit _ _) _ _) as [ds1 t1].
    destruct (fold_left (handleExit _ _) _ _) as [ds2 t2]. simpl.
    by destruct (firstImage data). }
  destruct (processWebSocketData Math_atan2 data now' dateNow' s1).
  destruct s1. simpl in *. congruence.
Qed.

End Idempotence.

(** ** Entry times *)

Section EntryTimes.

Variable Math_atan2 : Q -> Q -> Q.

(** The exits only delete entry times. *)
Lemma handleExit_times_sub ids dateNow st c k t :
  (handleExit ids dateNow st c).2 !! k = Some t -> st.2 !! k = Some t.
Proof.
  destruct st as [ds times]. unfold handleExit.
  destruct (decide _); [done|].
  destruct (times !! Customer.id c) as [t'|]; [|done].
  destruct (Z.eqb t' 0); [done|]. simpl.
  intros H. by apply lookup_delete_Some in H as [_ H].
Qed.

Lemma exits_times_sub ids dateNow l st k t :
  (fold_left (handleExit ids dateNow) l st).2 !! k = Some t ->
  st.2 !! k = Some t.
Proof.
  revert st. induction l as [|c l IH]; intros st H; simpl in H; [done|].
  apply IH in H. by apply handleExit_times_sub in H.
Qed.

(** A customer that leaves with an entry time other than [0] has no
    entry time after the exits. *)
Lemma exits_retired_gone ids dateNow l st c :
  c ∈ l -> Customer.id c ∉ ids ->
  (forall t, st.2 !! Customer.id c = Some t -> t <> 0%Z) ->
  (fold_left (handleExit ids dateNow) l st).2 !! Customer.id c = None.
Proof.
  revert st. induction l as [|c' l IH]; intros st Hc Hout Hnz.
  - by apply elem_of_nil in Hc.
  - cbn [fold_left]. apply elem_of_cons in Hc as [<-|Hc].
    + destruct ((fold_left (handleExit ids dateNow) l
                   (handleExit ids dateNow st c)).2 !! Customer.id c)
        as [t|] eqn:E; [|done].
      exfalso. apply exits_times_sub in E.
      destruct st as [ds times]. unfold handleExit in E.
      rewrite decide_False in E by done.
      destruct (times !! Customer.id c) as [t'|] eqn:E'.
      * destruct (Z.eqb_spec t' 0) as [->|Hne].
        { by apply (Hnz 0%Z). }
        simpl in E. by rewrite lookup_delete_eq in E.
      * simpl in E. congruence.
    + apply IH; [done | done |].
      intros t Ht. apply handleExit_times_sub in Ht. by apply Hnz.
Qed.


(** X2. An entity with a non-zero entry time that an update does not
    list is retired; when a later update lists its id again, the id gets
    the time of that later merge as its entry time, and the entity made
    for it is a new one: at the reported position, with a trail of that
    one point. *)
Theorem reappearing_id_is_a_fresh_entity
    (gone back : WebSocketResponse.t) (now now' : Q) (dateNow dateNow' : Z)
    (s : App.t) (c : Customer.t) (T0 : Z) (i : nat) (p : PlanData.t) :
  c ∈ App.customers s ->
  App.entryTimesRef s !! Customer.id c = Some T0 ->
  T0 <> 0%Z ->
  Customer.id c ∉ map PlanData.track_id (WebSocketResponse.plan_data gone) ->
  WebSocketResponse.plan_data back !! i = Some p ->
  PlanData.track_id p = Customer.id c ->
  let s1 := processWebSocketData Math_atan2 gone now dateNow s in
  let s2 := processWebSocketData Math_atan2 back now' dateNow' s1 in
  App.entryTimesRef s1 !! Customer.id c = None
  /\ App.entryTimesRef s2 !! Customer.id c = Some dateNow'
  /\ App.customers s2 !! i = Some (newCustomer Math_atan2 now' p).
Proof.
  intros Hc Hentry Hnz Hgone Hp Hid s1 s2.
  set (k := Customer.id c) in *.
  assert (App.entryTimesRef s1 !! k = None) as H1.
  { subst s1.
    change (App.entryTimesRef ?a) with (App.dailyStats a, App.entryTimesRef a).2.
    rewrite process_exits. apply exits_retired_gone; [done| |].
    - by rewrite merged_activeIds.
    - intros t Ht. simpl in Ht.
      rewrite (mergePerson_times_kept _ _ _ _ _ _ _ T0) in Ht by done.
      congruence. }
  assert (findCustomer k (App.customers s1) = None) as Hnew.
  { apply findCustomer_None. subst s1. by rewrite process_ids. }
  split; [done|]. split.
  - subst s2.
    change (App.entryTimesRef ?a) with (App.dailyStats a, App.entryTimesRef a).2.
    rewrite process_exits, exits_times_other.
    + simpl. apply mergePerson_times_new; [|done|done].
      apply list_elem_of_fmap. exists p. split; [done|].
      by apply list_elem_of_lookup_2 in Hp.
    + intros _ _ _. apply merged_activeIds.
      apply list_elem_of_fmap. exists p. split; [done|].
      by apply list_elem_of_lookup_2 in Hp.
  - subst s2. rewrite process_customers, list_lookup_fmap, Hp. simpl.
    unfold mergedCustomer. by rewrite Hid, Hnew.
Qed.




End EntryTimes.

(** ** Counting the visits *)

Lemma dwellSum_ext dateNow times times' l :
  (forall c, c ∈ l -> times' !! Customer.id c = times !! Customer.id c) ->
  dwellSum dateNow times' l = dwellSum dateNow times l.
Proof.
  induction l as [|c l IH]; intros H; simpl; [done|].
  rewrite H by (apply elem_of_cons; by left).
  rewrite IH; [done|]. intros c' Hc'. apply H, elem_of_cons. by right.
Qed.

Lemma dwellSum_cons dateNow times c l :
  dwellSum dateNow times (c :: l)
  = (dateNow - default 0%Z (times !! Customer.id c)
     + dwellSum dateNow times l)%Z.
Proof. reflexivity. Qed.

Lemma exits_total ids dateNow (f : Customer.t -> bool) l ds times :
  (forall c, f c = true <-> Customer.id c ∉ ids) ->
  NoDup (map Customer.id l) ->
  (forall c, c ∈ l -> Customer.id c ∉ ids ->
     exists t, times !! Customer.id c = Some t /\ t <> 0%Z) ->
  DailyStats.completedVisits (fold_left (handleExit ids dateNow) l (ds, times)).1
  = (DailyStats.completedVisits ds + Z.of_nat (length (List.filter f l)))%Z
  /\ DailyStats.totalDwellTimeMs
       (fold_left (handleExit ids dateNow) l (ds, times)).1
     = (DailyStats.totalDwellTimeMs ds
        + dwellSum dateNow times (List.filter f l))%Z.
Proof.
  intros Hf. revert ds times.
  induction l as [|c l IH]; intros ds times Hnd Hl.
  - simpl. split; lia.
  - simpl in Hnd. apply NoDup_cons in Hnd as [Hc Hnd].
    cbn [fold_left List.filter].
    destruct (f c) eqn:Fc.
    + apply Hf in Fc.
      destruct (Hl c) as (t & Ht & Hnz); [apply elem_of_cons; by left | done |].
      rewrite (handleExit_retires ids dateNow ds times c t) by done.
      destruct (IH (recordVisit (dateNow - t) ds) (delete (Customer.id c) times))
        as [Hv Hd]; [done| |].
      { intros c' Hc' Hout.
        rewrite lookup_delete_ne.
        - apply Hl; [apply elem_of_cons; by right | done].
        - intros E. apply Hc. rewrite E. apply list_elem_of_fmap. by exists c'. }
      rewrite Hv, Hd, dwellSum_cons, Ht. cbn [length].
      rewrite (dwellSum_ext dateNow times (delete (Customer.id c) times)).
      * rewrite Nat2Z.inj_succ. simpl. split; lia.
      * intros c' Hc'. apply lookup_delete_ne. intros E. apply Hc. rewrite E.
        apply list_elem_of_fmap. exists c'. split; [done|].
        apply list_elem_of_In. apply list_elem_of_In in Hc'.
        by apply filter_In in Hc' as [? _].
    + assert (Customer.id c ∈ ids) as Hin.
      { destruct (decide (Customer.id c ∈ ids)) as [|Hout]; [done|].
        apply Hf in Hout. congruence. }
      rewrite (handleExit_listed ids dateNow (ds, times) c) by done.
      apply IH; [done|]. intros c' Hc'. apply Hl, elem_of_cons. by right.
Qed.

Lemma listed_spec data c :
  listed data c = true
  <-> Customer.id c
      ∈ map PlanData.track_id (WebSocketResponse.plan_data data).
Proof.
  unfold listed. rewrite existsb_exists. split.
  - intros (k & Hk & E). apply String.eqb_eq in E. subst k.
    by apply list_elem_of_In.
  - intros H. exists (Customer.id c). split; [by apply list_elem_of_In|].
    apply String.eqb_refl.
Qed.

Section Visits.

Variable Math_atan2 : Q -> Q -> Q.

(** X4. When the live entities have distinct ids and each has a
    non-zero entry time, a merge adds to [completedVisits] exactly the
    number of live entities that the update does not list, and to
    [totalDwellTimeMs] exactly the sum of their visit times, each
    [dateNow] minus the entry time of the entity. *)
Theorem retirements_are_counted_once_each
    (data : WebSocketResponse.t) (now : Q) (dateNow : Z) (s : App.t) :
  NoDup (map Customer.id (App.customers s)) ->
  (forall c, c ∈ App.customers s ->
     exists t, App.entryTimesRef s !! Customer.id c = Some t /\ t <> 0%Z) ->
  let s' := processWebSocketData Math_atan2 data now dateNow s in
  DailyStats.completedVisits (App.dailyStats s')
  = (DailyStats.completedVisits (App.dailyStats s)
     + Z.of_nat (length (retired data s)))%Z
  /\ DailyStats.totalDwellTimeMs (App.dailyStats s')
     = (DailyStats.totalDwellTimeMs (App.dailyStats s)
        + dwellSum dateNow (App.entryTimesRef s) (retired data s))%Z.
Proof.
  intros Hnd Hlive s'. subst s'.
  change (App.dailyStats ?a) with (App.dailyStats a, App.entryTimesRef a).1
    at 1 3.
  rewrite process_exits.
  set (m := fold_left _ (WebSocketResponse.plan_data data) _).
  assert (forall c, c ∈ App.customers s ->
            entryTimes m !! Customer.id c
            = App.entryTimesRef s !! Customer.id c) as Hkept.
  { intros c Hc. destruct (Hlive c Hc) as (t & Ht & _). rewrite Ht.
    subst m. by apply mergePerson_times_kept. }
  destruct (exits_total (activeIds m) dateNow (fun c => negb (listed data c))
              (App.customers s) (updateStats data (App.dailyStats s))
              (entryTimes m)) as [Hv Hd].
  - intros c. rewrite negb_true_iff, <- not_true_iff_false, listed_spec.
    subst m. by rewrite merged_activeIds.
  - done.
  - intros c Hc _. rewrite Hkept by done. by apply Hlive.
  - rewrite Hv, Hd. fold (retired data s). split; [done|].
    rewrite (dwellSum_ext dateNow (App.entryTimesRef s) (entryTimes m)); [done|].
    intros c Hc. apply Hkept. apply list_elem_of_In.
    apply list_elem_of_In in Hc. unfold retired in Hc.
    by apply filter_In in Hc as [? _].
Qed.

Lemma countersKept_refl a : countersKept a a.
Proof. unfold countersKept. intuition lia. Qed.

Lemma countersKept_trans a b c :
  countersKept a b -> countersKept b c -> countersKept a c.
Proof. unfold countersKept. intros ? ?. intuition lia. Qed.

Lemma exits_visits ids dateNow l st :
  (DailyStats.completedVisits st.1
   <= DailyStats.completedVisits (fold_left (handleExit ids dateNow) l st).1)%Z.
Proof.
  revert st. induction l as [|c l IH]; intros st; simpl; [lia|].
  etransitivity; [|apply IH].
  destruct st as [ds times]. unfold handleExit.
  destruct (decide _); [simpl; lia|].
  destruct (times !! Customer.id c) as [t|]; [|simpl; lia].
  destruct (Z.eqb t 0); simpl; lia.
Qed.

Lemma process_countersKept data now dateNow s :
  countersKept (App.dailyStats s)
    (App.dailyStats (processWebSocketData Math_atan2 data now dateNow s)).
Proof.
  destruct (process_counters Math_atan2 data now dateNow s) as (Ht & Hq & _).
  unfold countersKept. rewrite Ht, Hq.
  change (App.dailyStats (processWebSocketData ?f ?d ?n ?t ?a))
    with (App.dailyStats (processWebSocketData f d n t a),
          App.entryTimesRef (processWebSocketData f d n t a)).1.
  rewrite process_exits.
  pose proof (exits_visits
    (activeIds (fold_left (mergePerson Math_atan2 (App.customers s) now dateNow)
       (WebSocketResponse.plan_data data) (mkMerge [] ∅ (App.entryTimesRef s))))
    dateNow (App.customers s)
    (updateStats data (App.dailyStats s),
     entryTimes (fold_left (mergePerson Math_atan2 (App.customers s) now dateNow)
       (WebSocketResponse.plan_data data) (mkMerge [] ∅ (App.entryTimesRef s)))))
    as Hv.
  cbn [fst updateStats DailyStats.completedVisits DailyStats.totalCustomers
       DailyStats.quickExits] in *.
  split; [exact Hv|].
  destruct (Z.ltb_spec 0 (WebSocketResponse.entry_number data));
    destruct (Z.ltb_spec 0 (WebSocketResponse.short_dwell_number data));
    repeat split; intros; lia.
Qed.

(** X5. Through every sequence of merges, frames and store selections,
    [completedVisits] never decreases, and [totalCustomers] and
    [quickExits], once positive, stay positive (and are never made
    negative): a report of zero or less never takes a shown count back. *)
Theorem counters_never_regress (events : list Event) (s s' : App.t) :
  run Math_atan2 events s = Some s' ->
  countersKept (App.dailyStats s) (App.dailyStats s').
Proof.
  revert s. induction events as [|e events IH]; intros s Hrun; simpl in Hrun.
  - injection Hrun as <-. apply countersKept_refl.
  - destruct (handle Math_atan2 e s) as [s1|] eqn:E; [|done].
    apply countersKept_trans with (App.dailyStats s1); [|by apply IH].
    destruct e as [payload now dateNow|time|idx]; simpl in E.
    + injection E as <-.
      destruct (onmessage_cases Math_atan2 payload now dateNow s)
        as [->|(message & data & _ & _ & ->)]; [apply countersKept_refl|].
      apply process_countersKept.
    + injection E as <-.
      destruct (update_frame time s) as (_ & _ & -> & _).
      apply countersKept_refl.
    + apply select_cases in E as [[_ ->]|(_ & store & _ & ->)];
        apply countersKept_refl.
Qed.

End Visits.

(** ** The statistics shown *)



Section Shown.

Variable Math_atan2 : Q -> Q -> Q.


Lemma process_image data now dateNow s :
  App.liveImage (processWebSocketData Math_atan2 data now dateNow s)
  = match firstImage data with
    | Some base64 => Some ("data:image/jpeg;base64," ++ base64)
    | None => App.liveImage s
    end.
Proof.
  unfold processWebSocketData.
  by destruct (fold_left (handleExit _ _) _ _) as [ds times].
Qed.

Lemma firstImage_nonempty data base64 :
  firstImage data = Some base64 -> base64 <> "".
Proof.
  unfold firstImage.
  destruct (WebSocketResponse.video_image data) as [|[|[key b] imgObj] rest];
    [done | done |].
  destruct (String.eqb_spec b ""); [done|]. congruence.
Qed.

Lemma handle_image e s s1 :
  handle Math_atan2 e s = Some s1 ->
  App.liveImage s1 = App.liveImage s
  \/ exists img, App.liveImage s1 = Some img /\ jpegDataUrl img.
Proof.
  intros He. destruct e as [payload now dateNow|time|idx]; simpl in He.
  - injection He as <-.
    destruct (onmessage_cases Math_atan2 payload now dateNow s)
      as [->|(message & data & _ & _ & ->)]; [by left|].
    rewrite process_image. destruct (firstImage data) as [b|] eqn:E; [|by left].
    right. eexists. split; [done|]. exists b. split; [|done].
    by apply firstImage_nonempty with data.
  - injection He as <-. left. unfold updateSimulation.
    by destruct (frameCustomers _ _ _ _).
  - apply select_cases in He as [[_ ->]|(_ & store & _ & ->)]; by left.
Qed.

(** X7. Through every sequence of merges, frames and store selections,
    an image that is shown is never taken away (only replaced), and if
    the image was missing or a JPEG data URL with a payload that is not
    empty at the start then it is so at the end. *)
Theorem live_image_is_kept_or_replaced (events : list Event) (s s' : App.t) :
  run Math_atan2 events s = Some s' ->
  (is_Some (App.liveImage s) -> is_Some (App.liveImage s'))
  /\ ((forall img, App.liveImage s = Some img -> jpegDataUrl img) ->
      forall img, App.liveImage s' = Some img -> jpegDataUrl img).
Proof.
  revert s. induction events as [|e events IH]; intros s Hrun; simpl in Hrun.
  - by injection Hrun as <-.
  - destruct (handle Math_atan2 e s) as [s1|] eqn:E; [|done].
    destruct (IH s1 Hrun) as [IH1 IH2].
    destruct (handle_image e s s1 E) as [Eq|(img1 & E1 & H1)].
    + rewrite Eq in *. by split.
    + split.
      * intros _. apply IH1. rewrite E1. by eexists.
      * intros _. apply IH2. intros img Himg. congruence.
Qed.

End Shown.

Lemma Qfloor_bounds q (d : Z) :
  (0 < d)%Z ->
  forall n : Z, q * inject_Z d == inject_Z n ->
  (Qfloor q * d <= n < (Qfloor q + 1) * d)%Z.
Proof.
  intros Hd n Hq.
  pose proof (Qfloor_le q) as Hlo. pose proof (Qlt_floor q) as Hhi.
  assert (0 < inject_Z d) as Hd'.
  { change 0 with (inject_Z 0). by rewrite <- Zlt_Qlt. }
  split.
  - rewrite Zle_Qle, inject_Z_mult, <- Hq. nra.
  - rewrite Zlt_Qlt, inject_Z_mult, <- Hq. nra.
Qed.

(** X8. The average visit time shown is [0] when no visit is completed
    (nothing is divided by zero), and otherwise it is the mean of the
    dwell times in whole seconds, rounded down:
    [avgDwell * 1000 * completedVisits <= totalDwellTimeMs
     < (avgDwell + 1) * 1000 * completedVisits]. *)
Theorem avgDwell_is_mean_in_whole_seconds (ds : DailyStats.t) :
  (DailyStats.completedVisits ds = 0%Z -> avgDwell ds = 0%Z)
  /\ ((0 < DailyStats.completedVisits ds)%Z ->
      (avgDwell ds * (1000 * DailyStats.completedVisits ds)
       <= DailyStats.totalDwellTimeMs ds
       < (avgDwell ds + 1) * (1000 * DailyStats.completedVisits ds))%Z).
Proof.
  unfold avgDwell. split.
  - intros ->. reflexivity.
  - intros Hpos.
    destruct (Z.eqb_spec (DailyStats.completedVisits ds) 0) as [E|_]; [lia|].
    apply Qfloor_bounds; [lia|].
    rewrite inject_Z_mult.
    assert (~ inject_Z (DailyStats.completedVisits ds) == 0) as Hne.
    { change 0 with (inject_Z 0). rewrite inject_Z_injective. lia. }
    change (inject_Z 1000) with 1000. field. exact Hne.
Qed.

(** X9. A rectangle is drawn for a heatmap cell only if the cell exists
    and its value is at least [0.1]; its opacity then lies between
    [1/150] and [0.9], and a red cell has the full opacity [0.9]. *)
Theorem heatCell_opacity_bounded
    (store : StoreConfig.t) (heatmap : list Q) (r c : nat)
    (color : string) (opacity : Q) :
  heatCell store heatmap r c = Some (color, opacity) ->
  exists val,
    heatmap !! (r * Z.to_nat (COLS store) + c)%nat = Some val
    /\ 1 # 10 <= val
    /\ 1 # 150 <= opacity
    /\ opacity <= 9 # 10
    /\ (color = "#ef4444" <-> 25 < val)
    /\ (color = "#ef4444" -> opacity = 9 # 10).
Proof.
  unfold heatCell.
  destruct (heatmap !! _) as [val|]; [|done].
  destruct (Qgt_bool (1 # 10) val) eqn:Hlow; [done|].
  intros H. injection H as <- <-. exists val. split; [done|].
  assert (1 # 10 <= val) as Hval.
  { apply Qnot_lt_le. intros Hlt. apply Qgt_bool_iff in Hlt. congruence. }
  split; [done|].
  assert (color_red : heatColor val = "#ef4444" <-> 25 < val).
  { unfold heatColor. destruct (Qgt_bool val 25) eqn:E.
    - apply Qgt_bool_iff in E. by split.
    - split.
      + by destruct (Qgt_bool val 12).
      + intros Hlt. apply Qgt_bool_iff in Hlt. congruence. }
  unfold heatOpacity.
  destruct (Qle_bool (val / 15) (9 # 10)) eqn:E.
  - apply Qle_bool_iff in E.
    split; [|split; [done|split; [done|]]].
    + apply Qle_shift_div_l; [reflexivity | lra].
    + intros Hred. apply color_red in Hred. exfalso.
      assert (val / 15 * 15 == val) as Hv by (field; discriminate).
      nra.
  - split; [discriminate|]. split; [apply Qle_refl|]. split; [done|]. done.
Qed.

(** ** Coming to rest *)







(** ** Heat and time *)



(** ** The grid *)

Lemma Qfloor_nonneg q : (0 <= Qfloor q)%Z <-> 0 <= q.
Proof.
  split.
  - intros H. apply Qle_trans with (inject_Z (Qfloor q)); [|apply Qfloor_le].
    change 0 with (inject_Z 0). by rewrite <- Zle_Qle.
  - intros H. change 0%Z with (Qfloor 0). by apply Qfloor_resp_le.
Qed.

Lemma Qfloor_lt q (n : Z) : (Qfloor q < n)%Z <-> q < inject_Z n.
Proof.
  split.
  - intros H. apply Qlt_le_trans with (inject_Z (Qfloor q + 1)); [apply Qlt_floor|].
    rewrite <- Zle_Qle. lia.
  - intros H. apply Z.lt_nge. intros Hle. rewrite Zle_Qle in Hle.
    pose proof (Qfloor_le q). lra.
Qed.

Lemma Qdiv25 a : a / GRID_SIZE * 25 == a.
Proof. unfold GRID_SIZE. field. Qed.

(** A position is on the grid exactly when it lies in the rectangle of
    the whole cells. *)
Lemma onGrid_spec store pos :
  onGrid store pos = true
  <-> 0 <= Point.x pos /\ Point.x pos < 25 * inject_Z (COLS store)
      /\ 0 <= Point.y pos /\ Point.y pos < 25 * inject_Z (ROWS store).
Proof.
  unfold onGrid, gridX, gridY.
  rewrite !andb_true_iff, !Z.leb_le, !Z.ltb_lt, !Qfloor_nonneg, !Qfloor_lt.
  pose proof (Qdiv25 (Point.x pos)). pose proof (Qdiv25 (Point.y pos)).
  split; intros H'; repeat split; lra.
Qed.

Lemma onGrid_cells store pos :
  onGrid store pos = true ->
  (0 <= gridX pos < COLS store)%Z /\ (0 <= gridY pos < ROWS store)%Z.
Proof.
  unfold onGrid. rewrite !andb_true_iff, !Z.leb_le, !Z.ltb_lt. tauto.
Qed.

Lemma cellIndex_of_nat store pos :
  onGrid store pos = true ->
  Z.of_nat (cellIndex store pos) = (gridY pos * COLS store + gridX pos)%Z.
Proof.
  intros H. apply onGrid_cells in H as [Hx Hy].
  unfold cellIndex. apply Z2Nat.id. nia.
Qed.

Lemma cellIndex_lt store pos :
  onGrid store pos = true ->
  (cellIndex store pos < Z.to_nat (COLS store * ROWS store))%nat.
Proof.
  intros H. pose proof (cellIndex_of_nat store pos H) as E.
  apply onGrid_cells in H as [Hx Hy].
  apply Nat2Z.inj_lt. rewrite E. rewrite Z2Nat.id by nia. nia.
Qed.

(** X12. A position is on the grid exactly when [0 <= x < 25 * COLS]
    and [0 <= y < 25 * ROWS]. For positions on the grid the cell index is
    below [COLS * ROWS], it gives back the column as its remainder and the
    row as its quotient by [COLS], and so two positions have the same
    index only if they are in the same cell. *)
Theorem cellIndex_is_a_bijection_on_the_grid
    (store : StoreConfig.t) (p q : Point.t) :
  onGrid store p = true ->
  onGrid store q = true ->
  (0 <= Point.x p /\ Point.x p < 25 * inject_Z (COLS store)
   /\ 0 <= Point.y p /\ Point.y p < 25 * inject_Z (ROWS store))
  /\ (cellIndex store p < Z.to_nat (COLS store * ROWS store))%nat
  /\ (Z.of_nat (cellIndex store p) mod COLS store = gridX p)%Z
  /\ (Z.of_nat (cellIndex store p) / COLS store = gridY p)%Z
  /\ (cellIndex store p = cellIndex store q ->
      gridX p = gridX q /\ gridY p = gridY q).
Proof.
  intros Hp Hq. split; [by apply onGrid_spec|].
  split; [by apply cellIndex_lt|].
  pose proof (cellIndex_of_nat store p Hp) as Ep.
  pose proof (cellIndex_of_nat store q Hq) as Eq.
  apply onGrid_cells in Hp as [Hpx Hpy]. apply onGrid_cells in Hq as [Hqx Hqy].
  rewrite Ep. split; [|split].
  - rewrite Z.add_comm, Z.mod_add by lia. apply Z.mod_small. lia.
  - rewrite Z.add_comm, Z.div_add by lia. rewrite Z.div_small by lia. lia.
  - intros E. rewrite E, Eq in Ep.
    assert (gridY p = gridY q) by nia. split; [nia | done].
Qed.

(** ** The size and the order of the heatmaps *)





Section Heatmaps.

Variable Math_atan2 : Q -> Q -> Q.







End Heatmaps.

(** ** The trail follows the entity *)

Lemma distance_le_30 p q :
  Qgt_bool (dist2 p q) 900 = false -> (distance p q <= 30)%R.
Proof.
  intros H. apply Rnot_lt_le. intros Hlt.
  apply distance_gt_30_iff in Hlt. congruence.
Qed.

Lemma distance_self_le_30 p : (distance p p <= 30)%R.
Proof.
  apply distance_le_30. destruct (Qgt_bool (dist2 p p) 900) eqn:E; [|done].
  apply Qgt_bool_iff in E. exfalso.
  assert (dist2 p p == 0) as E0 by (unfold dist2; ring). lra.
Qed.

Lemma moveCustomer_trailClose c : trailClose c -> trailClose (moveCustomer c).
Proof.
  intros Hc. unfold trailClose.
  rewrite moveCustomer_pos, moveCustomer_path. unfold advance.
  destruct (significant _ _); [|done].
  destruct (farFromTrail _ _) eqn:F; cbn [fst snd].
  - exists (lerp (Customer.pos c) (Customer.target c)).
    split; [apply last_snoc | apply distance_self_le_30].
  - unfold farFromTrail in F.
    destruct (last (Customer.path c)) as [p|]; [|done].
    exists p. split; [done | by apply distance_le_30].
Qed.

Section Trails.

Variable Math_atan2 : Q -> Q -> Q.

Lemma mergedCustomer_trailClose prev now p :
  (forall c, c ∈ prev -> trailClose c) ->
  trailClose (mergedCustomer Math_atan2 prev now p).
Proof.
  intros Hprev. unfold mergedCustomer.
  destruct (findCustomer _ prev) as [c|] eqn:E.
  - unfold findCustomer in E. apply find_some in E as [E _].
    apply list_elem_of_In, Hprev in E. exact E.
  - exists (targetPos p). split; [done | apply distance_self_le_30].
Qed.

Lemma handle_trailClose e s s1 :
  (forall c, c ∈ App.customers s -> trailClose c) ->
  handle Math_atan2 e s = Some s1 ->
  forall c, c ∈ App.customers s1 -> trailClose c.
Proof.
  intros Hs He c Hc. destruct e as [payload now dateNow|time|idx]; simpl in He.
  - injection He as <-.
    destruct (onmessage_cases Math_atan2 payload now dateNow s)
      as [E|(message & data & _ & _ & E)]; rewrite E in Hc; [by apply Hs|].
    rewrite process_customers in Hc.
    apply list_elem_of_fmap in Hc as (p & -> & _).
    by apply mergedCustomer_trailClose.
  - injection He as <-. rewrite update_customers in Hc.
    apply list_elem_of_fmap in Hc as (c0 & -> & Hc0).
    by apply moveCustomer_trailClose, Hs.
  - apply select_cases in He as [[_ ->]|(_ & store & _ & ->)]; [by apply Hs|].
    simpl in Hc. by apply elem_of_nil in Hc.
Qed.

(** X15. Through every sequence of merges, frames and store selections
    from the first render, the trail of every live entity has a last
    point, and the entity is at most 30 units from it: the trail is never
    empty and never falls further behind than the distance that makes a
    frame append a point to it. *)
Theorem trail_follows_the_entity
    (t0 : Q) (events : list Event) (s' : App.t) (c : Customer.t) :
  run Math_atan2 events (initial t0) = Some s' ->
  c ∈ App.customers s' ->
  exists p,
    last (Customer.path c) = Some p
    /\ (distance (Customer.pos c) p <= 30)%R.
Proof.
  intros Hrun. revert c. change (forall c, c ∈ App.customers s' -> trailClose c).
  assert (forall c, c ∈ App.customers (initial t0) -> trailClose c) as Hinit.
  { intros c Hc. simpl in Hc. by apply elem_of_nil in Hc. }
  revert Hinit Hrun. generalize (initial t0).
  induction events as [|e events IH]; intros s Hs Hrun; simpl in Hrun.
  - by injection Hrun as <-.
  - destruct (handle Math_atan2 e s) as [s1|] eqn:E; [|done].
    apply (IH s1); [|done]. by apply (handle_trailClose e s).
Qed.

End Trails.

(** ** What a store selection and a merge never do *)

Section Never.

Variable Math_atan2 : Q -> Q -> Q.


Lemma mergedCustomer_asMerged prev now p :
  (forall c, c ∈ prev -> asMerged c) ->
  asMerged (mergedCustomer Math_atan2 prev now p).
Proof.
  intros Hprev. unfold mergedCustomer.
  destruct (findCustomer _ prev) as [c|] eqn:E.
  - unfold findCustomer in E. apply find_some in E as [E _].
    apply list_elem_of_In, Hprev in E as (_ & Hc & _ & Ht & Hd).
    unfold asMerged. simpl. repeat split; [done | by eexists | done | done].
  - unfold asMerged. simpl. repeat split. by eexists.
Qed.

Lemma moveCustomer_asMerged c : asMerged c -> asMerged (moveCustomer c).
Proof.
  unfold asMerged, moveCustomer. by destruct (advance c).
Qed.

(** X17. Through every sequence of merges, frames and store selections
    from the first render, every live entity is [WALKING], has the colour
    of its gender, has an age, heads for no hotspot and has equal dwell
    and total start times: no code path makes an entity [BROWSING] or
    [EXITING] or recolours it. *)
Theorem live_entities_stay_as_merged
    (t0 : Q) (events : list Event) (s' : App.t) (c : Customer.t) :
  run Math_atan2 events (initial t0) = Some s' ->
  c ∈ App.customers s' ->
  Customer.state c = WALKING
  /\ Customer.color c = genderColor (Customer.gender c)
  /\ is_Some (Customer.age c)
  /\ Customer.targetId c = "unknown"
  /\ Customer.dwellStartTime c = Customer.totalStartTime c.
Proof.
  intros Hrun. revert c. change (forall c, c ∈ App.customers s' -> asMerged c).
  assert (forall c, c ∈ App.customers (initial t0) -> asMerged c) as Hinit.
  { intros c Hc. simpl in Hc. by apply elem_of_nil in Hc. }
  revert Hinit Hrun. generalize (initial t0).
  induction events as [|e events IH]; intros s Hs Hrun; simpl in Hrun.
  - by injection Hrun as <-.
  - destruct (handle Math_atan2 e s) as [s1|] eqn:E; [|done].
    apply (IH s1); [|done]. intros c Hc.
    destruct e as [payload now dateNow|time|idx]; simpl in E.
    + injection E as <-.
      destruct (onmessage_cases Math_atan2 payload now dateNow s)
        as [E|(message & data & _ & _ & E)]; rewrite E in Hc; [by apply Hs|].
      rewrite process_customers in Hc.
      apply list_elem_of_fmap in Hc as (p & -> & _).
      by apply mergedCustomer_asMerged.
    + injection E as <-. rewrite update_customers in Hc.
      apply list_elem_of_fmap in Hc as (c0 & -> & Hc0).
      by apply moveCustomer_asMerged, Hs.
    + apply select_cases in E as [[_ ->]|(_ & store & _ & ->)]; [by apply Hs|].
      simpl in Hc. by apply elem_of_nil in Hc.
Qed.

End Never.

(** ** The further properties on sample inputs *)

Lemma merge_twice_is_merge_once_witness :
  let data := Sample.update 42 [Sample.person "a" 0 0; Sample.person "b" 100 10] in
  NoDup (map PlanData.track_id (WebSocketResponse.plan_data data))
  /\ processWebSocketData Sample.atan2 data 9 7000 Sample.two = Sample.two.
Proof.
  intros data.
  assert (NoDup (map PlanData.track_id (WebSocketResponse.plan_data data)))
    as Hnd.
  { apply NoDup_cons. split.
    - apply not_elem_of_cons. split; [discriminate | apply not_elem_of_nil].
    - apply NoDup_singleton. }
  split; [exact Hnd|].
  exact (merge_twice_is_merge_once Sample.atan2 data 5 9 1000 7000 (initial 0) Hnd).
Defined.

Lemma reappearing_id_is_a_fresh_entity_witness :
  let c := newCustomer Sample.atan2 5 (Sample.person "a" 0 0) in
  let gone := Sample.update 42 [Sample.person "b" 100 10] in
  let back := Sample.update 43 [Sample.person "a" 7 7] in
  let s1 := processWebSocketData Sample.atan2 gone 6 4000 Sample.two in
  let s2 := processWebSocketData Sample.atan2 back 7 9000 s1 in
  c ∈ App.customers Sample.two
  /\ App.entryTimesRef Sample.two !! Customer.id c = Some 1000%Z
  /\ App.entryTimesRef s2 !! Customer.id c = Some 9000%Z
  /\ App.customers s2 !! 0%nat
     = Some (newCustomer Sample.atan2 7 (Sample.person "a" 7 7)).
Proof.
  intros c gone back s1 s2.
  assert (c ∈ App.customers Sample.two) as Hc.
  { replace (App.customers Sample.two)
      with [c; newCustomer Sample.atan2 5 (Sample.person "b" 100 10)]
      by reflexivity.
    apply elem_of_cons. by left. }
  assert (App.entryTimesRef Sample.two !! Customer.id c = Some 1000%Z) as Hentry
    by (vm_compute; reflexivity).
  assert (Customer.id c
          ∉ map PlanData.track_id (WebSocketResponse.plan_data gone)) as Hgone.
  { apply not_elem_of_cons. split; [discriminate | apply not_elem_of_nil]. }
  split; [exact Hc|]. split; [exact Hentry|].
  exact (proj2 (reappearing_id_is_a_fresh_entity Sample.atan2 gone back 6 7
                  4000 9000 Sample.two c 1000 0 (Sample.person "a" 7 7)
                  Hc Hentry ltac:(discriminate) Hgone eq_refl eq_refl)).
Defined.


Lemma retirements_are_counted_once_each_witness :
  let s := Sample.two in
  let data := Sample.update 42 [] in
  let s' := processWebSocketData Sample.atan2 data 6 4500 s in
  NoDup (map Customer.id (App.customers s))
  /\ (forall c, c ∈ App.customers s ->
        exists t, App.entryTimesRef s !! Customer.id c = Some t /\ t <> 0%Z)
  /\ length (retired data s) = 2%nat
  /\ DailyStats.completedVisits (App.dailyStats s')
     = (DailyStats.completedVisits (App.dailyStats s) + 2)%Z.
Proof.
  intros s data s'.
  assert (NoDup (map Customer.id (App.customers s))) as Hnd.
  { apply NoDup_cons. split.
    - apply not_elem_of_cons. split; [discriminate | apply not_elem_of_nil].
    - apply NoDup_singleton. }
  assert (forall c, c ∈ App.customers s ->
            exists t, App.entryTimesRef s !! Customer.id c = Some t /\ t <> 0%Z)
    as Hlive.
  { intros c Hc.
    replace (App.customers s)
      with [newCustomer Sample.atan2 5 (Sample.person "a" 0 0);
            newCustomer Sample.atan2 5 (Sample.person "b" 100 10)] in Hc
      by reflexivity.
    exists 1000%Z. split; [|discriminate].
    apply elem_of_cons in Hc as [->|Hc]; [vm_compute; reflexivity|].
    apply list_elem_of_singleton in Hc as ->. vm_compute; reflexivity. }
  split; [exact Hnd|]. split; [exact Hlive|]. split; [reflexivity|].
  exact (proj1 (retirements_are_counted_once_each Sample.atan2 data 6 4500 s
                  Hnd Hlive)).
Defined.

Lemma counters_never_regress_witness :
  let events := [Message (Sample.message 0 []) 7 3000; Select 1] in
  let s' := resetHeatmaps 1
              (StoreConfig.mk "coldroom2" "Makro St.57 (Bangphil-Coldroom2)"
                 1118 690 (Point.mk 559 650))
              (processWebSocketData Sample.atan2 (Sample.update 0 []) 7 3000
                 Sample.two) in
  run Sample.atan2 events Sample.two = Some s'
  /\ countersKept (App.dailyStats Sample.two) (App.dailyStats s').
Proof.
  intros events s'.
  assert (run Sample.atan2 events Sample.two = Some s') as Hrun by reflexivity.
  split; [exact Hrun|].
  exact (counters_never_regress Sample.atan2 events Sample.two s' Hrun).
Defined.

Lemma live_image_is_kept_or_replaced_witness :
  let shown := WebSocketResponse.mk "coldroom" 1 0 [[("cam", "AAAA")]] [] in
  let s := processWebSocketData Sample.atan2 shown 1 100 (initial 0) in
  let events := [Message (Sample.message 1 []) 2 200; Frame 60] in
  let s' := updateSimulation 60
              (processWebSocketData Sample.atan2 (Sample.update 1 []) 2 200 s) in
  run Sample.atan2 events s = Some s'
  /\ App.liveImage s = Some "data:image/jpeg;base64,AAAA"
  /\ is_Some (App.liveImage s').
Proof.
  intros shown s events s'.
  assert (run Sample.atan2 events s = Some s') as Hrun by reflexivity.
  split; [exact Hrun|]. split; [reflexivity|].
  apply (proj1 (live_image_is_kept_or_replaced Sample.atan2 events s s' Hrun)).
  by eexists.
Defined.

Lemma heatCell_opacity_bounded_witness :
  let store := App.store (initial 0) in
  heatCell store [3; 30] 0 1 = Some ("#ef4444", 9 # 10)
  /\ exists val, [3; 30] !! (0 * Z.to_nat (COLS store) + 1)%nat = Some val
                 /\ 1 # 10 <= val.
Proof.
  intros store.
  assert (heatCell store [3; 30] 0 1 = Some ("#ef4444", 9 # 10)) as H
    by reflexivity.
  split; [exact H|].
  destruct (heatCell_opacity_bounded store [3; 30] 0 1 "#ef4444" (9 # 10) H)
    as (val & Hv & Hlow & _).
  exists val. by split.
Defined.



Lemma cellIndex_is_a_bijection_on_the_grid_witness :
  let store := App.store (initial 0) in
  let p := Point.mk 30 60 in
  let q := Point.mk 1515 1015 in
  onGrid store p = true
  /\ onGrid store q = true
  /\ (cellIndex store p < Z.to_nat (COLS store * ROWS store))%nat.
Proof.
  intros store p q.
  assert (onGrid store p = true) as Hp by reflexivity.
  assert (onGrid store q = true) as Hq by reflexivity.
  split; [exact Hp|]. split; [exact Hq|].
  exact (proj1 (proj2 (cellIndex_is_a_bijection_on_the_grid store p q Hp Hq))).
Defined.



Lemma trail_follows_the_entity_witness :
  let events := [Message (Sample.message 1 [Sample.person "a" 0 0]) 0 1000;
                 Message (Sample.message 1 [Sample.person "a" 400 0]) 1 1100;
                 Frame 16] in
  let s' := updateSimulation 16
              (processWebSocketData Sample.atan2
                 (Sample.update 1 [Sample.person "a" 400 0]) 1 1100
                 (processWebSocketData Sample.atan2
                    (Sample.update 1 [Sample.person "a" 0 0]) 0 1000 (initial 0))) in
  let c := moveCustomer
             (updateExisting Sample.atan2
                (newCustomer Sample.atan2 0 (Sample.person "a" 0 0))
                (Sample.person "a" 400 0)) in
  run Sample.atan2 events (initial 0) = Some s'
  /\ c ∈ App.customers s'
  /\ exists p, last (Customer.path c) = Some p
               /\ (distance (Customer.pos c) p <= 30)%R.
Proof.
  intros events s' c.
  assert (run Sample.atan2 events (initial 0) = Some s') as Hrun by reflexivity.
  assert (c ∈ App.customers s') as Hc.
  { replace (App.customers s') with [c] by reflexivity.
    apply elem_of_cons. by left. }
  split; [exact Hrun|]. split; [exact Hc|].
  exact (trail_follows_the_entity Sample.atan2 0 events s' c Hrun Hc).
Defined.


Lemma live_entities_stay_as_merged_witness :
  let events := [Message (Sample.message 1 [Sample.person "a" 0 0]) 0 1000;
                 Frame 16] in
  let s' := updateSimulation 16
              (processWebSocketData Sample.atan2
                 (Sample.update 1 [Sample.person "a" 0 0]) 0 1000 (initial 0)) in
  let c := moveCustomer (newCustomer Sample.atan2 0 (Sample.person "a" 0 0)) in
  run Sample.atan2 events (initial 0) = Some s'
  /\ c ∈ App.customers s'
  /\ Customer.state c = WALKING
  /\ Customer.color c = genderColor (Customer.gender c).
Proof.
  intros events s' c.
  assert (run Sample.atan2 events (initial 0) = Some s') as Hrun by reflexivity.
  assert (c ∈ App.customers s') as Hc.
  { replace (App.customers s') with [c] by reflexivity.
    apply elem_of_cons. by left. }
  split; [exact Hrun|]. split; [exact Hc|].
  destruct (live_entities_stay_as_merged Sample.atan2 0 events s' c Hrun Hc)
    as (H1 & H2 & _).
  by split.
Defined.

(** ** The dwell time and the clock *)


Section Clock.

Variable Math_atan2 : Q -> Q -> Q.



End Clock.

